(** * Camera object detection overlay: a model of [src/App.js]

    [App] loads a COCO-SSD detector, asks for the camera, and once both
    are available runs a loop that calls [model.detect] on the video and
    draws the predictions on a canvas laid over it.

    The development follows the source file top to bottom:
    - [JS]: the two built-ins the renderer relies on,
      [Number.prototype.toFixed] and [parseInt], over binary64 numbers;
    - [Canvas]: the 2D context as the attributes the code assigns and the
      list of drawing calls it has received;
    - [drawBBox], [detectionFunction] and the body of [useEffect] as
      state-passing functions over [AppState], driven by the browser
      events the code has subscribed to.

    A session is one render of [App] followed by one run of its effect:
    the component has no state and no props, so it renders again only if
    its parent does. *)

From Stdlib Require Import ZArith NArith List String Ascii Bool Lia Floats.
From Stdlib Require Import DecimalString DecimalPos.
Import ListNotations.

Local Open Scope string_scope.
Local Open Scope Z_scope.

(** ** JavaScript built-ins *)

Module JS.

(** A JavaScript Number is an IEEE 754 binary64 value, which is what
    Rocq's primitive [float] is. *)
Definition Number : Type := float.

(** 𝔽(z): the Number nearest to the integer [z] (ties to even). *)
Definition of_Z (z : Z) : Number :=
  SF2Prim (binary_normalize prec emax z 0 false).

(** *** parseInt(string, 10) *)

Definition is_white_space (c : ascii) : bool :=
  match N_of_ascii c with
  | 9%N | 10%N | 11%N | 12%N | 13%N | 32%N => true
  | _ => false
  end.

Fixpoint trim_start (s : string) : string :=
  match s with
  | String c rest => if is_white_space c then trim_start rest else s
  | EmptyString => s
  end.

Definition digit_value (c : ascii) : option Z :=
  let n := Z.of_N (N_of_ascii c) in
  if (48 <=? n) && (n <=? 57) then Some (n - 48) else None.

(** The longest prefix of decimal digits, as a mathematical integer;
    [acc] is [None] until a first digit has been read. *)
Fixpoint parse_digits (s : string) (acc : option Z) : option Z :=
  match s with
  | String c rest =>
      match digit_value c with
      | Some d =>
          parse_digits rest
            (Some (10 * match acc with Some a => a | None => 0 end + d))
      | None => acc
      end
  | EmptyString => acc
  end.

(** [parseInt(s, 10)]: leading white space is skipped, one sign is
    accepted, the digits that follow are read and the rest of the
    string is ignored; without a digit the result is NaN. *)
Definition parseInt (s : string) : Number :=
  let s := trim_start s in
  let '(negative, s) :=
    match s with
    | String "-"%char rest => (true, rest)
    | String "+"%char rest => (false, rest)
    | _ => (false, s)
    end in
  match parse_digits s None with
  | None => nan
  | Some mathInt =>
      if negative then PrimFloat.opp (of_Z mathInt) else of_Z mathInt
  end.

(** *** Number.prototype.toFixed(fractionDigits) *)

(** Decimal digits of a non-negative integer, ["0"] for zero. *)
Definition digits (n : Z) : string :=
  NilEmpty.string_of_uint (N.to_uint (Z.to_N n)).

Fixpoint zeros (k : nat) : string :=
  match k with
  | O => EmptyString
  | S k' => String "0"%char (zeros k')
  end.

(** For x = m * 2^e > 0: the integer n for which n / 10^f - x is as
    close to zero as possible, the larger n if there are two. *)
Definition scaled_round (m : positive) (e : Z) (f : nat) : Z :=
  let num := Z.pos m * 10 ^ Z.of_nat f * 2 ^ Z.max e 0 in
  let den := 2 ^ Z.max (- e) 0 in
  (2 * num + den) / (2 * den).

(** m * 2^e >= 10^21 *)
Definition at_least_1e21 (m : positive) (e : Z) : bool :=
  10 ^ 21 * 2 ^ Z.max (- e) 0 <=? Z.pos m * 2 ^ Z.max e 0.

(** Steps 11.b-11.c of toFixed: the digits of [n], padded on the left
    with zeros to at least [f + 1] characters, with a point before the
    last [f] of them. *)
Definition fixed_notation (n : Z) (f : nat) : string :=
  let m := digits n in
  if Nat.eqb f 0 then m
  else
    let k := String.length m in
    let m := if Nat.leb k f then zeros (f + 1 - k) ++ m else m in
    let k := String.length m in
    substring 0 (k - f) m ++ "." ++ substring (k - f) f m.

Section ToFixed.

(** Number::toString, which toFixed falls back on for magnitudes of
    10^21 and more (exponent notation); it is not used below that. *)
Variable Number_toString : Number -> string.

(** [x.toFixed(fractionDigits)], for 0 <= fractionDigits <= 100
    (outside that range the built-in throws a RangeError; the program
    only passes 2). *)
Definition toFixed (x : Number) (fractionDigits : nat) : string :=
  match Prim2SF x with
  | S754_nan => "NaN"
  | S754_infinity false => "Infinity"
  | S754_infinity true => "-Infinity"
  | S754_zero _ => fixed_notation 0 fractionDigits
  | S754_finite negative m e =>
      (if negative then "-" else "") ++
      (if at_least_1e21 m e then Number_toString (PrimFloat.abs x)
       else fixed_notation (scaled_round m e fractionDigits) fractionDigits)
  end.

End ToFixed.

End JS.

(** ** The canvas 2D context *)

Module Canvas.

(** A call received by the context, with the attributes it is drawn
    with at the time of the call. *)
Inductive DrawCall : Type :=
| ClearRect (x y w h : JS.Number)
| StrokeRect (strokeStyle : string) (lineWidth : JS.Number)
    (x y w h : JS.Number)
| FillRect (fillStyle : string) (x y w h : JS.Number)
| FillText (fillStyle font textBaseline : string)
    (text : string) (x y : JS.Number).

(** The context of one canvas: [getContext('2d')] returns the same
    object on every call, so attributes and calls persist. *)
Record Context2D : Type := mkContext2D {
  canvas_width : JS.Number;
  canvas_height : JS.Number;
  strokeStyle : string;
  lineWidth : JS.Number;
  textBaseline : string;
  font : string;
  fillStyle : string;
  calls : list DrawCall
}.

(** A fresh context with the attribute defaults of the canvas API. *)
Definition getContext (width height : JS.Number) : Context2D :=
  mkContext2D width height "#000000" 1%float "alphabetic"
    "10px sans-serif" "#000000" [].

Definition set_strokeStyle (v : string) (ctx : Context2D) : Context2D :=
  mkContext2D (canvas_width ctx) (canvas_height ctx) v (lineWidth ctx)
    (textBaseline ctx) (font ctx) (fillStyle ctx) (calls ctx).

(** Zero, negative, infinite and NaN line widths are ignored. *)
Definition set_lineWidth (v : JS.Number) (ctx : Context2D) : Context2D :=
  if (PrimFloat.ltb 0 v && PrimFloat.ltb v infinity)%bool then
    mkContext2D (canvas_width ctx) (canvas_height ctx) (strokeStyle ctx) v
      (textBaseline ctx) (font ctx) (fillStyle ctx) (calls ctx)
  else ctx.

Definition set_textBaseline (v : string) (ctx : Context2D) : Context2D :=
  mkContext2D (canvas_width ctx) (canvas_height ctx) (strokeStyle ctx)
    (lineWidth ctx) v (font ctx) (fillStyle ctx) (calls ctx).

(** The font is kept as assigned: the program assigns a valid font
    that is already in serialised form. *)
Definition set_font (v : string) (ctx : Context2D) : Context2D :=
  mkContext2D (canvas_width ctx) (canvas_height ctx) (strokeStyle ctx)
    (lineWidth ctx) (textBaseline ctx) v (fillStyle ctx) (calls ctx).

Definition set_fillStyle (v : string) (ctx : Context2D) : Context2D :=
  mkContext2D (canvas_width ctx) (canvas_height ctx) (strokeStyle ctx)
    (lineWidth ctx) (textBaseline ctx) (font ctx) v (calls ctx).

Definition call (c : DrawCall) (ctx : Context2D) : Context2D :=
  mkContext2D (canvas_width ctx) (canvas_height ctx) (strokeStyle ctx)
    (lineWidth ctx) (textBaseline ctx) (font ctx) (fillStyle ctx)
    (calls ctx ++ [c]).

Definition clearRect (x y w h : JS.Number) (ctx : Context2D) : Context2D :=
  call (ClearRect x y w h) ctx.

Definition strokeRect (x y w h : JS.Number) (ctx : Context2D) : Context2D :=
  call (StrokeRect (strokeStyle ctx) (lineWidth ctx) x y w h) ctx.

Definition fillRect (x y w h : JS.Number) (ctx : Context2D) : Context2D :=
  call (FillRect (fillStyle ctx) x y w h) ctx.

Definition fillText (text : string) (x y : JS.Number) (ctx : Context2D)
  : Context2D :=
  call (FillText (fillStyle ctx) (font ctx) (textBaseline ctx) text x y) ctx.

Definition is_clear (c : DrawCall) : bool :=
  match c with ClearRect _ _ _ _ => true | _ => false end.

Definition is_stroke (c : DrawCall) : bool :=
  match c with StrokeRect _ _ _ _ _ _ => true | _ => false end.

Definition is_fillRect (c : DrawCall) : bool :=
  match c with FillRect _ _ _ _ _ => true | _ => false end.

Definition is_fillText (c : DrawCall) : bool :=
  match c with FillText _ _ _ _ _ _ => true | _ => false end.

End Canvas.

(** ** Data of the detector *)

(** One detection: [{ class, score, bbox: [x, y, width, height] }]. *)
Record Prediction : Type := mkPrediction {
  class : string;
  score : JS.Number;
  bbox : list JS.Number
}.

(** [a[i]] in a numeric position: an index outside the array reads
    [undefined], which arithmetic and the canvas API turn into NaN. *)
Definition at_index (a : list JS.Number) (i : nat) : JS.Number :=
  nth i a nan.

(** The object [cocoSsd.load] resolves to, named by its base network. *)
Record ObjectDetection : Type := mkObjectDetection { base : string }.

(** The stream [getUserMedia] resolves to. *)
Record MediaStream : Type := mkMediaStream { stream_id : nat }.

Definition Error : Type := string.

(** A fixed-pitch text measure, six pixels a character, used to run the
    renderer on concrete inputs. *)
Definition fixed_pitch (font text : string) : JS.Number :=
  JS.of_Z (6 * Z.of_nat (String.length text)).

(** Exponent notation is not needed for the concrete runs. *)
Definition no_exponent_notation (x : JS.Number) : string := "1e+21".

(** ** The component *)

(** A promise is pending until it is settled, once, with a value or with
    a reason. *)
Inductive PromiseState (A : Type) : Type :=
| Pending
| Fulfilled (value : A)
| Rejected (reason : Error).

Arguments Pending {A}.
Arguments Fulfilled {A} value.
Arguments Rejected {A} reason.

Definition is_pending {A : Type} (p : PromiseState A) : bool :=
  match p with Pending => true | _ => false end.

(** What [promiseCamera] is fulfilled with: the [loadedmetadata] event
    handed to [resolve] (line 143), or [undefined], the result of the
    [catch] callback (lines 144-147). *)
Inductive CameraValue : Type :=
| MetadataEvent
| Undefined.

(** Calls the component makes on its environment, other than drawing. *)
Inductive Effect : Type :=
| ConsoleLog (error : Error)
| Alert (message : string)
| ConsoleError (error : Error)
| ModelDetect (call : nat) (model : ObjectDetection)
    (srcObject : option MediaStream)
| RequestAnimationFrame
| UnhandledRejection (error : Error).

(** What the browser can deliver to the component: the settlement of a
    promise it is waiting on, the video's [loadedmetadata] event, or an
    animation frame.  Each one is a task of the event loop; the promise
    reactions it triggers run to completion before the next one. *)
Inductive Event : Type :=
| ModelLoadResolved (model : ObjectDetection)
| ModelLoadRejected (error : Error)
| GetUserMediaResolved (streamCamera : MediaStream)
| GetUserMediaRejected (error : Error)
| LoadedMetadata
| AnimationFrame
| DetectResolved (call : nat) (predictions : list Prediction)
| DetectRejected (call : nat) (error : Error).

(** The state of one mounted [App]: its promises, the two refs, the
    animation frame callbacks and [detect] calls that are outstanding,
    and the calls made so far. *)
Record AppState : Type := mkAppState {
  (* navigator.mediaDevices.getUserMedia is present (line 136) *)
  hasGetUserMedia : bool;
  (* line 13 *)
  promiseModel : PromiseState ObjectDetection;
  (* the promise returned by getUserMedia (line 138) *)
  promiseGetUserMedia : PromiseState MediaStream;
  (* refVideo.current.srcObject *)
  srcObject : option MediaStream;
  (* the promise made on line 143; its resolve is onloadedmetadata *)
  promiseMetadata : option (PromiseState CameraValue);
  (* lines 138-147 *)
  promiseCamera : PromiseState CameraValue;
  (* Promise.all([promiseModel, promiseCamera]) (line 150) *)
  promiseAll : PromiseState (ObjectDetection * CameraValue);
  (* the models captured by the callbacks given to requestAnimationFrame *)
  animationFrameCallbacks : list ObjectDetection;
  (* detect calls that have not settled *)
  pendingDetect : list nat;
  nextCall : nat;
  (* refCanvas.current.getContext('2d') *)
  ctx : Canvas.Context2D;
  effects : list Effect
}.

Definition set_promiseModel (v : PromiseState ObjectDetection) (s : AppState)
  : AppState :=
  mkAppState (hasGetUserMedia s) v (promiseGetUserMedia s) (srcObject s)
    (promiseMetadata s) (promiseCamera s) (promiseAll s)
    (animationFrameCallbacks s) (pendingDetect s) (nextCall s) (ctx s)
    (effects s).

Definition set_promiseGetUserMedia (v : PromiseState MediaStream)
  (s : AppState) : AppState :=
  mkAppState (hasGetUserMedia s) (promiseModel s) v (srcObject s)
    (promiseMetadata s) (promiseCamera s) (promiseAll s)
    (animationFrameCallbacks s) (pendingDetect s) (nextCall s) (ctx s)
    (effects s).

Definition set_srcObject (v : option MediaStream) (s : AppState) : AppState :=
  mkAppState (hasGetUserMedia s) (promiseModel s) (promiseGetUserMedia s) v
    (promiseMetadata s) (promiseCamera s) (promiseAll s)
    (animationFrameCallbacks s) (pendingDetect s) (nextCall s) (ctx s)
    (effects s).

Definition set_promiseMetadata (v : option (PromiseState CameraValue))
  (s : AppState) : AppState :=
  mkAppState (hasGetUserMedia s) (promiseModel s) (promiseGetUserMedia s)
    (srcObject s) v (promiseCamera s) (promiseAll s)
    (animationFrameCallbacks s) (pendingDetect s) (nextCall s) (ctx s)
    (effects s).

Definition set_promiseCamera (v : PromiseState CameraValue) (s : AppState)
  : AppState :=
  mkAppState (hasGetUserMedia s) (promiseModel s) (promiseGetUserMedia s)
    (srcObject s) (promiseMetadata s) v (promiseAll s)
    (animationFrameCallbacks s) (pendingDetect s) (nextCall s) (ctx s)
    (effects s).

Definition set_promiseAll (v : PromiseState (ObjectDetection * CameraValue))
  (s : AppState) : AppState :=
  mkAppState (hasGetUserMedia s) (promiseModel s) (promiseGetUserMedia s)
    (srcObject s) (promiseMetadata s) (promiseCamera s) v
    (animationFrameCallbacks s) (pendingDetect s) (nextCall s) (ctx s)
    (effects s).

Definition set_animationFrameCallbacks (v : list ObjectDetection)
  (s : AppState) : AppState :=
  mkAppState (hasGetUserMedia s) (promiseModel s) (promiseGetUserMedia s)
    (srcObject s) (promiseMetadata s) (promiseCamera s) (promiseAll s)
    v (pendingDetect s) (nextCall s) (ctx s) (effects s).

Definition set_pendingDetect (v : list nat) (s : AppState) : AppState :=
  mkAppState (hasGetUserMedia s) (promiseModel s) (promiseGetUserMedia s)
    (srcObject s) (promiseMetadata s) (promiseCamera s) (promiseAll s)
    (animationFrameCallbacks s) v (nextCall s) (ctx s) (effects s).

Definition set_nextCall (v : nat) (s : AppState) : AppState :=
  mkAppState (hasGetUserMedia s) (promiseModel s) (promiseGetUserMedia s)
    (srcObject s) (promiseMetadata s) (promiseCamera s) (promiseAll s)
    (animationFrameCallbacks s) (pendingDetect s) v (ctx s) (effects s).

Definition set_ctx (v : Canvas.Context2D) (s : AppState) : AppState :=
  mkAppState (hasGetUserMedia s) (promiseModel s) (promiseGetUserMedia s)
    (srcObject s) (promiseMetadata s) (promiseCamera s) (promiseAll s)
    (animationFrameCallbacks s) (pendingDetect s) (nextCall s) v (effects s).

(** Append one call to the log. *)
Definition perform (e : Effect) (s : AppState) : AppState :=
  mkAppState (hasGetUserMedia s) (promiseModel s) (promiseGetUserMedia s)
    (srcObject s) (promiseMetadata s) (promiseCamera s) (promiseAll s)
    (animationFrameCallbacks s) (pendingDetect s) (nextCall s) (ctx s)
    (effects s ++ [e]).

Section App.

(** Number::toString for the exponent-notation branch of toFixed. *)
Variable Number_toString : JS.Number -> string.

(** [ctx.measureText(text).width] for a context whose font is [font]:
    decided by the browser's text shaping. *)
Variable measureText : forall (font text : string), JS.Number.

(** *** drawBBox (lines 55-112) *)

(** Line 78. *)
Definition predictionText (prediction : Prediction) : string :=
  class prediction ++ " " ++
  JS.toFixed Number_toString (score prediction * 100)%float 2.

(** The callback given to [predictions.forEach] (lines 76-111). *)
Definition draw_prediction (ctx : Canvas.Context2D) (prediction : Prediction)
  : Canvas.Context2D :=
  let predictionText := predictionText prediction in
  let widthText := measureText (Canvas.font ctx) predictionText in
  let heightText := JS.parseInt (Canvas.font ctx) in
  let ctx :=
    Canvas.strokeRect
      (at_index (bbox prediction) 0)
      (at_index (bbox prediction) 1)
      (at_index (bbox prediction) 2)
      (at_index (bbox prediction) 3) ctx in
  let ctx := Canvas.set_fillStyle "#0F0" ctx in
  let ctx :=
    Canvas.fillRect
      (at_index (bbox prediction) 0 - Canvas.lineWidth ctx / 2)%float
      (at_index (bbox prediction) 1)
      (widthText + Canvas.lineWidth ctx)%float
      (- heightText)%float ctx in
  let ctx := Canvas.set_fillStyle "#00F" ctx in
  Canvas.fillText predictionText
    (at_index (bbox prediction) 0) (at_index (bbox prediction) 1) ctx.

Definition drawBBox (predictions : list Prediction) (ctx : Canvas.Context2D)
  : Canvas.Context2D :=
  let ctx :=
    Canvas.clearRect 0%float 0%float
      (Canvas.canvas_width ctx) (Canvas.canvas_height ctx) ctx in
  let ctx := Canvas.set_strokeStyle "red" ctx in
  let ctx := Canvas.set_lineWidth 4%float ctx in
  let ctx := Canvas.set_textBaseline "bottom" ctx in
  let ctx := Canvas.set_font "12px sans-serif" ctx in
  fold_left draw_prediction predictions ctx.

(** *** detectionFunction (lines 45-50)

    [video] is [refVideo.current], the element whose [srcObject] the
    state holds; [model.detect] returns a promise, whose settlement
    arrives later as an event for the call's number. *)
Definition detectionFunction (model : ObjectDetection) (s : AppState)
  : AppState :=
  (* line 46: model.detect(video).then(...) *)
  let call := nextCall s in
  let s := perform (ModelDetect call model (srcObject s)) s in
  let s := set_pendingDetect (pendingDetect s ++ [call]) s in
  let s := set_nextCall (S call) s in
  (* line 49: requestAnimationFrame(() => detectionFunction(video, model)) *)
  let s := perform RequestAnimationFrame s in
  set_animationFrameCallbacks (animationFrameCallbacks s ++ [model]) s.

(** *** The effect (lines 120-154) *)

(** The reactions of [Promise.all([promiseModel, promiseCamera])] and of
    the [then] and [catch] chained on it (lines 150-152): it is
    rejected as soon as one of the two is, and fulfilled once both are. *)
Definition settle_promiseAll (s : AppState) : AppState :=
  if hasGetUserMedia s && is_pending (promiseAll s) then
    match promiseModel s, promiseCamera s with
    | Rejected error, _ | _, Rejected error =>
        perform (ConsoleError error) (set_promiseAll (Rejected error) s)
    | Fulfilled model, Fulfilled value =>
        detectionFunction model (set_promiseAll (Fulfilled (model, value)) s)
    | _, _ => s
    end
  else s.

Definition remove_call (call : nat) (l : list nat) : list nat :=
  filter (fun c => negb (Nat.eqb c call)) l.

(** One task of the event loop. A settlement of a promise that is not
    pending, or of a call that is not outstanding, changes nothing. *)
Definition step (s : AppState) (ev : Event) : AppState :=
  match ev with
  | ModelLoadResolved model =>
      if is_pending (promiseModel s) then
        settle_promiseAll (set_promiseModel (Fulfilled model) s)
      else s
  | ModelLoadRejected error =>
      if is_pending (promiseModel s) then
        let s := set_promiseModel (Rejected error) s in
        if hasGetUserMedia s then settle_promiseAll s
        else perform (UnhandledRejection error) s
      else s
  | GetUserMediaResolved streamCamera =>
      if hasGetUserMedia s && is_pending (promiseGetUserMedia s) then
        let s := set_promiseGetUserMedia (Fulfilled streamCamera) s in
        (* lines 139-144 *)
        let s := set_srcObject (Some streamCamera) s in
        set_promiseMetadata (Some Pending) s
      else s
  | GetUserMediaRejected error =>
      if hasGetUserMedia s && is_pending (promiseGetUserMedia s) then
        let s := set_promiseGetUserMedia (Rejected error) s in
        (* lines 144-147 *)
        let s := perform (ConsoleLog error) s in
        let s :=
          perform (Alert "Activate your camera and refresh the page!") s in
        settle_promiseAll (set_promiseCamera (Fulfilled Undefined) s)
      else s
  | LoadedMetadata =>
      match promiseMetadata s with
      | Some Pending =>
          let s := set_promiseMetadata (Some (Fulfilled MetadataEvent)) s in
          settle_promiseAll (set_promiseCamera (Fulfilled MetadataEvent) s)
      | _ => s
      end
  | AnimationFrame =>
      (* the callbacks registered before this frame; those they register
         wait for the next one *)
      fold_left (fun s model => detectionFunction model s)
        (animationFrameCallbacks s) (set_animationFrameCallbacks [] s)
  | DetectResolved call predictions =>
      if existsb (Nat.eqb call) (pendingDetect s) then
        let s := set_pendingDetect (remove_call call (pendingDetect s)) s in
        (* lines 46-48 *)
        set_ctx (drawBBox predictions (ctx s)) s
      else s
  | DetectRejected call error =>
      if existsb (Nat.eqb call) (pendingDetect s) then
        let s := set_pendingDetect (remove_call call (pendingDetect s)) s in
        perform (UnhandledRejection error) s
      else s
  end.

(** The component after its first render and the run of its effect:
    [cocoSsd.load] and, when the browser has it, [getUserMedia] have
    been called and nothing has settled yet. The canvas has the size of
    the window (lines 30-31, 175-176). *)
Definition mount (getUserMedia_present : bool)
  (widthWindow heightWindow : JS.Number) : AppState :=
  mkAppState getUserMedia_present Pending Pending None None Pending Pending
    [] [] 0%nat (Canvas.getContext widthWindow heightWindow) [].

Definition run (s : AppState) (events : list Event) : AppState :=
  fold_left step events s.

(** *** Observations *)

Definition is_detect (e : Effect) : bool :=
  match e with ModelDetect _ _ _ => true | _ => false end.

Definition is_schedule (e : Effect) : bool :=
  match e with RequestAnimationFrame => true | _ => false end.

Definition is_alert (e : Effect) : bool :=
  match e with Alert _ => true | _ => false end.

Definition is_console_error (e : Effect) : bool :=
  match e with ConsoleError _ => true | _ => false end.

(** [detectionFunction] has been called. *)
Definition loop_started (s : AppState) : bool :=
  existsb is_detect (effects s).

(** The number of times [drawBBox] has run: each run clears once. *)
Definition renders (s : AppState) : nat :=
  List.length (filter Canvas.is_clear (Canvas.calls (ctx s))).

(** The calls one run of [drawBBox] adds to those the context has. *)
Definition drawn (predictions : list Prediction) (ctx : Canvas.Context2D)
  : list Canvas.DrawCall :=
  skipn (List.length (Canvas.calls ctx))
    (Canvas.calls (drawBBox predictions ctx)).

(** The three calls made for one prediction, with the attributes
    [drawBBox] has set by then. *)
Definition outline (p : Prediction) : Canvas.DrawCall :=
  Canvas.StrokeRect "red" 4%float
    (at_index (bbox p) 0) (at_index (bbox p) 1)
    (at_index (bbox p) 2) (at_index (bbox p) 3).

Definition label_background (p : Prediction) : Canvas.DrawCall :=
  Canvas.FillRect "#0F0"
    (at_index (bbox p) 0 - 2)%float (at_index (bbox p) 1)
    (measureText "12px sans-serif" (predictionText p) + 4)%float
    (-12)%float.

Definition label (p : Prediction) : Canvas.DrawCall :=
  Canvas.FillText "#00F" "12px sans-serif" "bottom" (predictionText p)
    (at_index (bbox p) 0) (at_index (bbox p) 1).

(** The attributes [drawBBox] sets before the loop and that the loop
    body leaves alone. *)
Definition styled (ctx : Canvas.Context2D) : Prop :=
  Canvas.strokeStyle ctx = "red" /\ Canvas.lineWidth ctx = 4%float /\
  Canvas.textBaseline ctx = "bottom" /\ Canvas.font ctx = "12px sans-serif".

(** The calls one invocation of [detectionFunction] adds to the log. *)
Definition tick_effects (model : ObjectDetection) (s : AppState)
  : list Effect :=
  skipn (List.length (effects s)) (effects (detectionFunction model s)).

Definition is_digit (c : ascii) : bool :=
  match JS.digit_value c with Some _ => true | None => false end.

Fixpoint all_digits (s : string) : bool :=
  match s with
  | String c rest => is_digit c && all_digits rest
  | EmptyString => true
  end.

(** A session in which the model loads, the camera is granted and the
    video's metadata arrives. *)
Definition mobilenet : ObjectDetection := mkObjectDetection "mobilenet_v2".

Definition ready_events : list Event :=
  [ModelLoadResolved mobilenet; GetUserMediaResolved (mkMediaStream 1);
   LoadedMetadata].

Definition ready : AppState :=
  run (mount true 640%float 480%float) ready_events.

(** A session in which the model loads and the camera is refused. *)
Definition denied_events : list Event :=
  [ModelLoadResolved mobilenet; GetUserMediaRejected "NotAllowedError"].

(** The prediction of the spec's rendering scenario. *)
Definition person : Prediction :=
  mkPrediction "person" 0x1.f0a3d70a3d70ap-1%float
    [10; 20; 100; 200]%float.

(** *** What holds of every state a session can reach

    [consistent events s] relates the state [s] reached from [mount] to
    the events delivered so far. *)
Definition consistent (events : list Event) (s : AppState) : Prop :=
  (* the catch on line 144 leaves promiseCamera no way to be rejected *)
  (forall error, promiseCamera s <> Rejected error) /\
  (* Promise.all and the loop *)
  match promiseAll s with
  | Pending =>
      animationFrameCallbacks s = [] /\ loop_started s = false /\
      filter is_console_error (effects s) = [] /\
      (hasGetUserMedia s = true ->
       (forall error, promiseModel s <> Rejected error) /\
       (is_pending (promiseModel s) || is_pending (promiseCamera s) = true))
  | Fulfilled (model, value) =>
      promiseModel s = Fulfilled model /\ promiseCamera s = Fulfilled value /\
      animationFrameCallbacks s = [model] /\ loop_started s = true /\
      filter is_console_error (effects s) = []
  | Rejected error =>
      promiseModel s = Rejected error /\
      animationFrameCallbacks s = [] /\ loop_started s = false /\
      filter is_console_error (effects s) = [ConsoleError error]
  end /\
  (* nothing is outstanding or drawn before the loop starts *)
  (loop_started s = false ->
   pendingDetect s = [] /\ Canvas.calls (ctx s) = []) /\
  (* how promiseCamera came to be fulfilled *)
  match promiseCamera s with
  | Fulfilled MetadataEvent =>
      promiseMetadata s = Some (Fulfilled MetadataEvent)
  | Fulfilled Undefined =>
      exists error, promiseGetUserMedia s = Rejected error
  | _ => True
  end /\
  (* the camera promise chain *)
  match promiseGetUserMedia s with
  | Pending =>
      promiseMetadata s = None /\ filter is_alert (effects s) = []
  | Fulfilled _ =>
      promiseMetadata s <> None /\ filter is_alert (effects s) = []
  | Rejected _ =>
      hasGetUserMedia s = true /\
      promiseMetadata s = None /\ promiseCamera s = Fulfilled Undefined /\
      filter is_alert (effects s) =
        [Alert "Activate your camera and refresh the page!"]
  end /\
  (* settlements come from events *)
  (forall model,
     promiseModel s = Fulfilled model -> In (ModelLoadResolved model) events) /\
  (forall value,
     promiseMetadata s = Some (Fulfilled value) -> In LoadedMetadata events) /\
  (* without the effect's subscriptions nobody handles a rejected load *)
  (hasGetUserMedia s = false ->
   forall error,
     promiseModel s = Rejected error ->
     In (UnhandledRejection error) (effects s)).

(** *** Further observations of a session *)

(** The outline, label background and label of every prediction of a
    list, in order. *)
Definition shapes (predictions : list Prediction) : list Canvas.DrawCall :=
  flat_map (fun p => [outline p; label_background p; label p]) predictions.

(** The calls made after the last [clearRect]: with clears that cover
    the canvas, what is left to see. *)
Fixpoint after_last_clear (calls : list Canvas.DrawCall)
  : list Canvas.DrawCall :=
  match calls with
  | [] => []
  | c :: rest =>
      if existsb Canvas.is_clear rest then after_last_clear rest
      else if Canvas.is_clear c then rest else c :: rest
  end.

Definition is_unhandled (e : Effect) : bool :=
  match e with UnhandledRejection _ => true | _ => false end.

(** The two calls of the [catch] callback, lines 145-146. *)
Definition is_camera_report (e : Effect) : bool :=
  match e with ConsoleLog _ | Alert _ => true | _ => false end.

(** The bookkeeping of [detect] calls: the outstanding ones are distinct
    and were issued, every issued call is logged, and in a session whose
    effect ran every issued call is outstanding, drawn or rejected. *)
Definition numbered (s : AppState) : Prop :=
  NoDup (pendingDetect s) /\
  Forall (fun call => (call < nextCall s)%nat) (pendingDetect s) /\
  List.length (filter is_detect (effects s)) = nextCall s /\
  (hasGetUserMedia s = true ->
   (renders s + List.length (pendingDetect s) +
    List.length (filter is_unhandled (effects s)))%nat = nextCall s).

(** The video's stream is the one [getUserMedia] resolved to, and every
    [detect] call was made with the loaded model on the video as it
    still is. *)
Definition streamed (s : AppState) : Prop :=
  match promiseGetUserMedia s with
  | Fulfilled streamCamera => srcObject s = Some streamCamera
  | _ => srcObject s = None
  end /\
  Forall (fun e =>
            match e with
            | ModelDetect _ model video =>
                promiseModel s = Fulfilled model /\ video = srcObject s
            | _ => True
            end) (effects s).

(** What the [catch] callback of lines 144-147 has reported, and what a
    browser without [getUserMedia] leaves of the component. *)
Definition reported (present : bool) (s : AppState) : Prop :=
  hasGetUserMedia s = present /\
  filter is_camera_report (effects s) =
    match promiseGetUserMedia s with
    | Rejected error =>
        [ConsoleLog error; Alert "Activate your camera and refresh the page!"]
    | _ => []
    end /\
  (present = false ->
   promiseAll s = Pending /\ promiseGetUserMedia s = Pending /\
   promiseCamera s = Pending /\ srcObject s = None /\
   filter (fun e => negb (is_unhandled e)) (effects s) = []).

(** *** The claims' readings that are compared with the code *)

(** "first schedules the next tick, then issues the detect call": the
    scheduling call is the first call of the tick and the detect call
    comes after it. *)
Definition schedules_before_detect (tick : list Effect) : bool :=
  match tick with
  | RequestAnimationFrame :: rest => existsb is_detect rest
  | _ => false
  end.

(** "the text's height plus fixed padding": a background of that height
    is taller than the text. *)
Definition taller_than_text (heightText : JS.Number) (c : Canvas.DrawCall)
  : bool :=
  match c with
  | Canvas.FillRect _ _ _ _ h => PrimFloat.ltb heightText (PrimFloat.abs h)
  | _ => false
  end.

(** ** The renderer *)

Lemma parseInt_font : JS.parseInt "12px sans-serif" = 12%float.
Proof. vm_compute. reflexivity. Qed.

Lemma draw_prediction_calls (ctx : Canvas.Context2D) (p : Prediction) :
  styled ctx ->
  styled (draw_prediction ctx p) /\
  Canvas.calls (draw_prediction ctx p) =
    (Canvas.calls ctx ++ [outline p; label_background p; label p])%list.
Proof.
  intros (Hs & Hw & Hb & Hf).
  unfold draw_prediction, styled, outline, label_background, label.
  cbn [Canvas.strokeRect Canvas.fillRect Canvas.fillText Canvas.call
       Canvas.set_fillStyle Canvas.strokeStyle Canvas.lineWidth
       Canvas.textBaseline Canvas.font Canvas.fillStyle Canvas.calls
       Canvas.canvas_width Canvas.canvas_height].
  rewrite Hs, Hw, Hb, Hf, parseInt_font.
  repeat split.
  rewrite <- !app_assoc. reflexivity.
Qed.

Lemma forEach_calls (predictions : list Prediction) :
  forall ctx, styled ctx ->
    Canvas.calls (fold_left draw_prediction predictions ctx) =
      (Canvas.calls ctx ++
       flat_map (fun p => [outline p; label_background p; label p])
         predictions)%list.
Proof.
  induction predictions as [|p ps IH]; intros ctx Hctx.
  - cbn. now rewrite app_nil_r.
  - destruct (draw_prediction_calls ctx p Hctx) as [Hst Hc].
    cbn [fold_left flat_map]. rewrite (IH _ Hst), Hc, <- app_assoc.
    reflexivity.
Qed.

Lemma drawBBox_calls (predictions : list Prediction)
  (ctx : Canvas.Context2D) :
  Canvas.calls (drawBBox predictions ctx) =
    (Canvas.calls ctx ++
     Canvas.ClearRect 0%float 0%float (Canvas.canvas_width ctx) (Canvas.canvas_height ctx)
     :: flat_map (fun p => [outline p; label_background p; label p])
          predictions)%list.
Proof.
  unfold drawBBox. rewrite forEach_calls.
  - cbn. rewrite <- app_assoc. reflexivity.
  - repeat split.
Qed.

Lemma skipn_length_app {A : Type} (l r : list A) :
  skipn (List.length l) (l ++ r)%list = r.
Proof. induction l as [|a l IH]; [reflexivity | exact IH]. Qed.

Lemma drawn_calls (predictions : list Prediction) (ctx : Canvas.Context2D) :
  drawn predictions ctx =
    Canvas.ClearRect 0%float 0%float
      (Canvas.canvas_width ctx) (Canvas.canvas_height ctx)
    :: flat_map (fun p => [outline p; label_background p; label p])
         predictions.
Proof. unfold drawn. rewrite drawBBox_calls. apply skipn_length_app. Qed.

Lemma filter_prediction_calls (keep : Canvas.DrawCall -> bool)
  (pick : Prediction -> Canvas.DrawCall) (predictions : list Prediction) :
  (forall p,
     filter keep [outline p; label_background p; label p] = [pick p]) ->
  filter keep
    (flat_map (fun p => [outline p; label_background p; label p])
       predictions) = map pick predictions.
Proof.
  intros Hpick. induction predictions as [|p ps IH].
  - reflexivity.
  - cbn [flat_map map]. rewrite filter_app, IH, Hpick. reflexivity.
Qed.

(** C4: for every prediction of the list, in order, the outline that
    [drawBBox] strokes has exactly the four numbers of the prediction's
    [bbox] as its x, y, width and height: nothing is clamped, scaled or
    otherwise changed, and there is no other stroke. *)
Theorem outline_is_input_bbox (predictions : list Prediction)
  (ctx : Canvas.Context2D) :
  filter Canvas.is_stroke (drawn predictions ctx) =
    map (fun p =>
           Canvas.StrokeRect "red" 4%float
             (at_index (bbox p) 0) (at_index (bbox p) 1)
             (at_index (bbox p) 2) (at_index (bbox p) 3))
      predictions.
Proof.
  rewrite drawn_calls. cbn [filter Canvas.is_stroke].
  apply filter_prediction_calls. reflexivity.
Qed.

(** C5 (amended): for every prediction, [drawBBox] fills one label
    background. Its corner is (bbox x - 2, bbox y), half a line width
    left of the outline's corner; its width is the measured width of
    the label plus the line width 4; its height is -12, the text height
    [parseInt("12px sans-serif")] negated, so that it reaches 12 pixels
    up from the outline's top edge, with nothing added to the text
    height. *)
Theorem label_background_geometry (predictions : list Prediction)
  (ctx : Canvas.Context2D) :
  JS.parseInt "12px sans-serif" = 12%float /\
  filter Canvas.is_fillRect (drawn predictions ctx) =
    map (fun p =>
           Canvas.FillRect "#0F0"
             (at_index (bbox p) 0 - 4 / 2)%float
             (at_index (bbox p) 1)
             (measureText "12px sans-serif" (predictionText p) + 4)%float
             (- JS.parseInt "12px sans-serif")%float)
      predictions.
Proof.
  split; [exact parseInt_font|].
  rewrite drawn_calls, parseInt_font. cbn [filter Canvas.is_fillRect].
  apply filter_prediction_calls. reflexivity.
Qed.

(** C7: one run of [drawBBox] first clears the whole canvas, from (0, 0)
    over the canvas width and height, and then makes, for each
    prediction in list order, the outline stroke, the label background
    fill and the label text, in that order; the clear is the first call
    of the run. *)
Theorem clear_then_draw_in_order (predictions : list Prediction)
  (ctx : Canvas.Context2D) :
  Canvas.calls (drawBBox predictions ctx) =
    (Canvas.calls ctx ++ drawn predictions ctx)%list /\
  drawn predictions ctx =
    Canvas.ClearRect 0%float 0%float
      (Canvas.canvas_width ctx) (Canvas.canvas_height ctx)
    :: flat_map (fun p => [outline p; label_background p; label p])
         predictions.
Proof.
  split; [|apply drawn_calls].
  rewrite drawn_calls. apply drawBBox_calls.
Qed.

(** C8: on the empty list, [drawBBox] clears the whole canvas and makes
    no other call: no stroke, no fill, no text. *)
Theorem empty_list_only_clears (ctx : Canvas.Context2D) :
  drawn [] ctx =
    [Canvas.ClearRect 0%float 0%float
       (Canvas.canvas_width ctx) (Canvas.canvas_height ctx)] /\
  Canvas.calls (drawBBox [] ctx) =
    (Canvas.calls ctx ++
     [Canvas.ClearRect 0%float 0%float
        (Canvas.canvas_width ctx) (Canvas.canvas_height ctx)])%list /\
  filter (fun c => negb (Canvas.is_clear c)) (drawn [] ctx) = [].
Proof.
  rewrite drawn_calls, drawBBox_calls. repeat split.
Qed.

(** ** Rounding of binary64 products *)

Lemma digits2_pos_lower (p : positive) :
  2 ^ (Z.pos (digits2_pos p) - 1) <= Z.pos p.
Proof.
  induction p as [p IH|p IH|]; cbn [digits2_pos].
  - rewrite Pos2Z.inj_succ.
    replace (Z.succ (Z.pos (digits2_pos p)) - 1)
      with (Z.succ (Z.pos (digits2_pos p) - 1)) by lia.
    rewrite Z.pow_succ_r by lia. lia.
  - rewrite Pos2Z.inj_succ.
    replace (Z.succ (Z.pos (digits2_pos p)) - 1)
      with (Z.succ (Z.pos (digits2_pos p) - 1)) by lia.
    rewrite Z.pow_succ_r by lia. lia.
  - cbn. lia.
Qed.

Lemma digits2_pos_upper (p : positive) :
  Z.pos p < 2 ^ Z.pos (digits2_pos p).
Proof.
  induction p as [p IH|p IH|]; cbn [digits2_pos].
  - rewrite Pos2Z.inj_succ, Z.pow_succ_r by lia. lia.
  - rewrite Pos2Z.inj_succ, Z.pow_succ_r by lia. lia.
  - cbn. lia.
Qed.

Lemma Zdigits2_bound (z k : Z) :
  0 <= k -> 0 <= z < 2 ^ k -> Zdigits2 z <= k.
Proof.
  intros Hk [Hz Hlt]. destruct z as [|p|p]; cbn; try lia.
  pose proof (digits2_pos_lower p) as Hl.
  destruct (Z_le_gt_dec (Z.pos (digits2_pos p)) k) as [|Hgt]; [assumption|].
  exfalso.
  assert (2 ^ k <= 2 ^ (Z.pos (digits2_pos p) - 1))
    by (apply Z.pow_le_mono_r; lia).
  lia.
Qed.

Lemma shr_1_bound (mrs : shr_record) :
  0 <= shr_m mrs -> 0 <= shr_m (shr_1 mrs) <= shr_m mrs.
Proof.
  destruct mrs as [m r s]; cbn [shr_m]. intros Hm.
  destruct m as [|[p|p|]|p]; cbn; lia.
Qed.

Lemma iter_shr_1_bound (n : positive) :
  forall mrs, 0 <= shr_m mrs ->
    0 <= shr_m (iter_pos shr_1 n mrs) <= shr_m mrs.
Proof.
  induction n as [n IH|n IH|]; intros mrs Hm; cbn [iter_pos].
  - pose proof (shr_1_bound mrs Hm) as H1.
    pose proof (IH (shr_1 mrs) (proj1 H1)) as H2.
    pose proof (IH _ (proj1 H2)) as H3. lia.
  - pose proof (IH mrs Hm) as H2.
    pose proof (IH _ (proj1 H2)) as H3. lia.
  - apply shr_1_bound, Hm.
Qed.

Lemma shr_record_of_loc_m (m : Z) (l : location) :
  shr_m (shr_record_of_loc m l) = m.
Proof. destruct l as [|[| |]]; reflexivity. Qed.

Lemma shr_fexp_bound (m e : Z) (l : location) :
  0 <= m ->
  0 <= shr_m (fst (shr_fexp prec emax m e l)) <= m /\
  snd (shr_fexp prec emax m e l) =
    Z.max e (fexp prec emax (Zdigits2 m + e)).
Proof.
  intros Hm. unfold shr_fexp, shr.
  destruct (fexp prec emax (Zdigits2 m + e) - e) as [|n|n] eqn:En;
    cbn [fst snd].
  - rewrite shr_record_of_loc_m. lia.
  - pose proof (iter_shr_1_bound n (shr_record_of_loc m l)) as Hb.
    rewrite shr_record_of_loc_m in Hb. split; [now apply Hb | lia].
  - rewrite shr_record_of_loc_m. lia.
Qed.

Lemma round_nearest_even_bound (m : Z) (l : location) :
  0 <= m -> m <= round_nearest_even m l <= m + 1.
Proof.
  intros Hm. unfold round_nearest_even.
  destruct l as [|[| |]]; try lia. destruct (Z.even m); lia.
Qed.

(** Rounding a positive mantissa below 2^106 at an exponent of at most
    -98 gives zero or a finite number with the same sign and an exponent
    of at most 9. *)
Lemma binary_round_aux_small (sx : bool) (mx : positive) (ex : Z) :
  Z.pos mx < 2 ^ 106 -> ex <= -98 ->
  binary_round_aux prec emax sx (Z.pos mx) ex loc_Exact = S754_zero sx \/
  exists m e,
    binary_round_aux prec emax sx (Z.pos mx) ex loc_Exact = S754_finite sx m e
    /\ e <= 9.
Proof.
  intros Hmx Hex. unfold binary_round_aux.
  pose proof (shr_fexp_bound (Z.pos mx) ex loc_Exact ltac:(lia)) as [Hm1 He1].
  destruct (shr_fexp prec emax (Z.pos mx) ex loc_Exact) as [mrs' e'].
  cbn [fst snd] in Hm1, He1.
  pose proof (round_nearest_even_bound (shr_m mrs') (loc_of_shr_record mrs')
                (proj1 Hm1)) as Hr.
  set (m1 := round_nearest_even (shr_m mrs') (loc_of_shr_record mrs')) in *.
  pose proof (shr_fexp_bound m1 e' loc_Exact ltac:(lia)) as [Hm2 He2].
  destruct (shr_fexp prec emax m1 e' loc_Exact) as [mrs'' e''].
  cbn [fst snd] in Hm2, He2.
  assert (Hd0 : Zdigits2 (Z.pos mx) <= 106)
    by (apply Zdigits2_bound; lia).
  assert (Hd1 : Zdigits2 m1 <= 107).
  { apply Zdigits2_bound; [lia|].
    change (2 ^ 107) with (2 * 2 ^ 106). lia. }
  unfold fexp, emin, prec, emax in He1, He2.
  assert (He : e'' <= 9) by lia.
  destruct (shr_m mrs'') as [|m|m]; [now left | | lia].
  right. exists m, e''.
  replace (e'' <=? emax - prec) with true; [now split|].
  symmetry. apply Z.leb_le. unfold emax, prec. lia.
Qed.

Lemma valid_mantissa_bound (s : bool) (m : positive) (e : Z) :
  valid_binary (S754_finite s m e) = true -> Z.pos m < 2 ^ 53.
Proof.
  unfold valid_binary. cbn [SpecFloat.valid_binary].
  unfold bounded, canonical_mantissa, fexp, emin.
  intros H. apply andb_true_iff in H as [H _]. apply Z.eqb_eq in H.
  unfold prec, emax in H.
  pose proof (digits2_pos_upper m) as Hu.
  assert (Hd : Z.pos (digits2_pos m) <= 53) by lia.
  assert (2 ^ Z.pos (digits2_pos m) <= 2 ^ 53)
    by (apply Z.pow_le_mono_r; lia).
  lia.
Qed.

(** A score between 0 and 1, times 100, is zero or a positive finite
    number far below 10^21: [toFixed] prints it in fixed notation,
    without a sign. *)
Lemma unit_score_product (x : float) :
  (0 <=? x)%float = true -> (x <=? 1)%float = true ->
  match Prim2SF (x * 100)%float with
  | S754_zero _ => True
  | S754_finite negative m e =>
      negative = false /\ JS.at_least_1e21 m e = false
  | _ => False
  end.
Proof.
  rewrite !leb_spec. intros H0 H1.
  pose proof (Prim2SF_valid x) as Hvx.
  pose proof (Prim2SF_valid (x * 100)%float) as Hv.
  unfold JS.at_least_1e21. rewrite mul_spec in *.
  change (Prim2SF 100) with (S754_finite false 7036874417766400 (-46)) in *.
  change (Prim2SF 0) with (S754_zero false) in H0.
  change (Prim2SF 1) with (S754_finite false 4503599627370496 (-52)) in H1.
  destruct (Prim2SF x) as [s|s| |s m e]; try discriminate.
  - exact I.
  - destruct s; discriminate.
  - destruct s; [discriminate|].
    assert (He : e <= -52).
    { unfold SFleb, SFcompare in H1.
      revert H1. destruct (Z.compare_spec e (-52)); intros H1;
        [lia | lia | discriminate H1]. }
    apply valid_mantissa_bound in Hvx.
    unfold SF64mul, SFmul in *. cbn [xorb] in *.
    destruct (binary_round_aux_small false (m * 7036874417766400) (e + -46))
      as [Hz|(m' & e' & Hf & He')].
    + rewrite Pos2Z.inj_mul.
      change (2 ^ 106) with (2 ^ 53 * 2 ^ 53).
      apply Z.mul_lt_mono_nonneg; lia.
    + lia.
    + now rewrite Hz.
    + rewrite Hf in *. apply valid_mantissa_bound in Hv.
      split; [reflexivity|]. apply Z.leb_gt.
      assert (0 < 2 ^ Z.max (- e') 0) by (apply Z.pow_pos_nonneg; lia).
      assert (2 ^ Z.max e' 0 <= 2 ^ 9) by (apply Z.pow_le_mono_r; lia).
      assert (0 < 2 ^ Z.max e' 0) by (apply Z.pow_pos_nonneg; lia).
      change (2 ^ 53) with 9007199254740992 in Hv.
      change (2 ^ 9) with 512 in *. change (10 ^ 21) with 1000000000000000000000.
      assert (Z.pos m' * 2 ^ Z.max e' 0 < 9007199254740992 * 512) by nia.
      nia.
Qed.

(** [scaled_round m e f] is the integer nearest to m * 2^e * 10^f, the
    larger of the two when it lies half way: with the product written
    as num / den, n - 1/2 <= num / den < n + 1/2. *)
Lemma scaled_round_nearest (m : positive) (e : Z) (f : nat) :
  let num := Z.pos m * 10 ^ Z.of_nat f * 2 ^ Z.max e 0 in
  let den := 2 ^ Z.max (- e) 0 in
  let n := JS.scaled_round m e f in
  (2 * n - 1) * den <= 2 * num < (2 * n + 1) * den.
Proof.
  intros num den n.
  assert (Hden : 0 < den) by (apply Z.pow_pos_nonneg; lia).
  subst n. unfold JS.scaled_round. fold num den.
  pose proof (Z.mul_div_le (2 * num + den) (2 * den) ltac:(lia)) as Hle.
  pose proof (Z.mul_succ_div_gt (2 * num + den) (2 * den) ltac:(lia)) as Hgt.
  nia.
Qed.

(** ** The label text *)

Lemma length_append (a b : string) :
  String.length (a ++ b) = (String.length a + String.length b)%nat.
Proof. induction a as [|c a IH]; cbn; [reflexivity | now rewrite IH]. Qed.

Lemma all_digits_append (a b : string) :
  all_digits (a ++ b) = all_digits a && all_digits b.
Proof.
  induction a as [|c a IH]; cbn; [reflexivity|].
  now rewrite IH, andb_assoc.
Qed.

Lemma length_zeros (k : nat) : String.length (JS.zeros k) = k.
Proof. induction k as [|k IH]; cbn; [reflexivity | now rewrite IH]. Qed.

Lemma all_digits_zeros (k : nat) : all_digits (JS.zeros k) = true.
Proof. induction k as [|k IH]; cbn; [reflexivity | exact IH]. Qed.

Lemma length_substring (s : string) :
  forall a b, (a + b <= String.length s)%nat ->
    String.length (substring a b s) = b.
Proof.
  induction s as [|c s IH]; intros a b Hab; cbn in Hab.
  - destruct a, b; cbn; lia.
  - destruct a as [|a].
    + destruct b as [|b]; cbn; [reflexivity|].
      rewrite (IH 0%nat b); [reflexivity | lia].
    + cbn. apply IH. lia.
Qed.

Lemma all_digits_substring (s : string) :
  forall a b, all_digits s = true -> all_digits (substring a b s) = true.
Proof.
  induction s as [|c s IH]; intros a b Hs.
  - destruct a, b; reflexivity.
  - cbn in Hs. apply andb_true_iff in Hs as [Hc Hs].
    destruct a as [|a].
    + destruct b as [|b]; cbn; [reflexivity|].
      rewrite Hc. apply (IH 0%nat b Hs).
    + cbn. apply IH, Hs.
Qed.

Lemma all_digits_uint (u : Decimal.uint) :
  all_digits (NilEmpty.string_of_uint u) = true.
Proof. induction u; cbn; trivial. Qed.

Lemma digits_all_digits (n : Z) : all_digits (JS.digits n) = true.
Proof. apply all_digits_uint. Qed.

Lemma digits_nonempty (n : Z) : (1 <= String.length (JS.digits n))%nat.
Proof.
  unfold JS.digits. destruct (Z.to_N n) as [|p]; cbn; [lia|].
  pose proof (DecimalPos.Unsigned.to_uint_nonnil p) as Hp.
  destruct (Pos.to_uint p); cbn; try lia. congruence.
Qed.

(** In fixed notation with two fraction digits there is a non-empty
    run of digits, a point, and exactly two digits. *)
Lemma fixed_notation_two (n : Z) :
  exists int frac : string,
    JS.fixed_notation n 2 = int ++ "." ++ frac /\
    int <> "" /\ all_digits int = true /\
    String.length frac = 2%nat /\ all_digits frac = true.
Proof.
  unfold JS.fixed_notation. cbn [Nat.eqb].
  set (m := if Nat.leb (String.length (JS.digits n)) 2
            then JS.zeros (2 + 1 - String.length (JS.digits n)) ++ JS.digits n
            else JS.digits n).
  assert (Hd : all_digits m = true).
  { subst m. destruct (Nat.leb _ 2).
    - now rewrite all_digits_append, all_digits_zeros, digits_all_digits.
    - apply digits_all_digits. }
  assert (Hk : (3 <= String.length m)%nat).
  { subst m. pose proof (digits_nonempty n).
    destruct (Nat.leb_spec (String.length (JS.digits n)) 2).
    - rewrite length_append, length_zeros. lia.
    - lia. }
  exists (substring 0 (String.length m - 2) m),
         (substring (String.length m - 2) 2 m).
  split; [reflexivity|]. split.
  - intro He.
    pose proof (length_substring m 0 (String.length m - 2)) as Hl.
    rewrite He in Hl. cbn in Hl. lia.
  - split; [now apply all_digits_substring|]. split.
    + apply length_substring. lia.
    + now apply all_digits_substring.
Qed.

Lemma toFixed_unit_score (x : JS.Number) :
  (0 <=? x)%float = true -> (x <=? 1)%float = true ->
  exists int frac : string,
    JS.toFixed Number_toString (x * 100)%float 2 = int ++ "." ++ frac /\
    int <> "" /\ all_digits int = true /\
    String.length frac = 2%nat /\ all_digits frac = true.
Proof.
  intros H0 H1. pose proof (unit_score_product x H0 H1) as Hp.
  unfold JS.toFixed.
  destruct (Prim2SF (x * 100)%float) as [sg|sg| |sg m e]; try contradiction.
  - apply fixed_notation_two.
  - destruct Hp as [-> ->]. apply fixed_notation_two.
Qed.

Lemma toFixed_8345 :
  JS.toFixed Number_toString (0x1.ab4395810624ep-1 * 100)%float 2 = "83.45".
Proof. vm_compute. reflexivity. Qed.

Lemma toFixed_97 :
  JS.toFixed Number_toString (0x1.f0a3d70a3d70ap-1 * 100)%float 2 = "97.00".
Proof. vm_compute. reflexivity. Qed.

(** C6: the text drawn for every prediction is its class, one space,
    and [(score * 100).toFixed(2)]. For every score between 0 and 1 that
    suffix is digits, a point and exactly two digits, zeros included;
    score 0.8345, the Number
    0x1.ab4395810624ep-1, gives "83.45" and score 0.97, the Number
    0x1.f0a3d70a3d70ap-1, gives "97.00". *)
Theorem label_text_two_decimals :
  (forall predictions ctx,
     filter Canvas.is_fillText (drawn predictions ctx) =
       map (fun p =>
              Canvas.FillText "#00F" "12px sans-serif" "bottom"
                (class p ++ " " ++
                 JS.toFixed Number_toString (score p * 100)%float 2)
                (at_index (bbox p) 0) (at_index (bbox p) 1))
         predictions) /\
  (forall p,
     (0 <=? score p)%float = true -> (score p <=? 1)%float = true ->
     exists int frac : string,
       predictionText p = class p ++ " " ++ int ++ "." ++ frac /\
       int <> "" /\ all_digits int = true /\
       String.length frac = 2%nat /\ all_digits frac = true) /\
  (forall c b,
     predictionText (mkPrediction c 0x1.ab4395810624ep-1%float b) =
       c ++ " 83.45") /\
  (forall c b,
     predictionText (mkPrediction c 0x1.f0a3d70a3d70ap-1%float b) =
       c ++ " 97.00").
Proof.
  split; [|split; [|split]].
  - intros predictions ctx. rewrite drawn_calls.
    cbn [filter Canvas.is_fillText].
    apply filter_prediction_calls. reflexivity.
  - intros p H0 H1. unfold predictionText.
    destruct (toFixed_unit_score _ H0 H1) as (int & frac & H & H').
    exists int, frac. rewrite H. split; [reflexivity | exact H'].
  - intros c b. unfold predictionText. cbn [class score].
    now rewrite toFixed_8345.
  - intros c b. unfold predictionText. cbn [class score].
    now rewrite toFixed_97.
Qed.

(** ** The session *)

Lemma run_snoc (s : AppState) (events : list Event) (ev : Event) :
  run s (events ++ [ev]) = step (run s events) ev.
Proof. unfold run. now rewrite fold_left_app. Qed.

Ltac log_simpl :=
  cbn in *; rewrite ?existsb_app, ?filter_app, ?orb_false_r in *; cbn in *.

Ltac break_hyps :=
  repeat match goal with
  | H : _ /\ _ |- _ => destruct H
  | H : exists _, _ |- _ => destruct H
  | H : ?a = ?a -> _ |- _ => specialize (H eq_refl)
  | H : ?P -> _, H' : ?P |- _ =>
      match type of P with Prop => specialize (H H') end
  | H : forall e, Rejected ?r <> Rejected e |- _ =>
      exfalso; exact (H r eq_refl)
  | H : Some _ = None |- _ => discriminate H
  | H : None = Some _ |- _ => discriminate H
  | H : ?x <> ?x |- _ => exfalso; exact (H eq_refl)
  | H : Fulfilled _ = Fulfilled _ |- _ => injection H as H
  | H : Rejected _ = Rejected _ |- _ => injection H as H
  | H : Some _ = Some _ |- _ => injection H as H
  end; subst; try discriminate.

Ltac log_norm :=
  rewrite ?existsb_app, ?filter_app in *;
  cbn [existsb filter is_detect is_alert is_console_error app orb] in *;
  rewrite ?orb_true_r, ?orb_false_r, ?app_nil_r in *.

Ltac use_log_facts :=
  repeat match goal with
  | H : filter ?f ?l = _ |- context [filter ?f ?l] => rewrite H
  | H : existsb ?f ?l = _ |- context [existsb ?f ?l] => rewrite H
  end.

Ltac settle :=
  break_hyps; log_norm; break_hyps; use_log_facts;
  repeat match goal with
  | |- _ /\ _ => split
  | |- forall _, _ => intro
  | |- True => exact I
  end;
  break_hyps;
  try solve
    [ reflexivity | assumption | discriminate | congruence
    | eexists; reflexivity
    | apply in_or_app; (left; solve [eauto]) || (right; left; reflexivity)
    | rewrite ?in_app_iff; cbn [In]; solve [intuition (eauto; congruence)] ].

Ltac exec :=
  cbv beta iota zeta delta
    [step settle_promiseAll detectionFunction perform
     set_promiseModel set_promiseGetUserMedia set_srcObject
     set_promiseMetadata set_promiseCamera set_promiseAll
     set_animationFrameCallbacks set_pendingDetect set_nextCall set_ctx
     hasGetUserMedia promiseModel promiseGetUserMedia srcObject
     promiseMetadata promiseCamera promiseAll animationFrameCallbacks
     pendingDetect nextCall ctx effects is_pending andb orb fold_left
     loop_started].

Ltac exec_in H :=
  cbv beta iota zeta delta
    [hasGetUserMedia promiseModel promiseGetUserMedia srcObject
     promiseMetadata promiseCamera promiseAll animationFrameCallbacks
     pendingDetect nextCall ctx effects loop_started] in H.

Lemma mount_consistent (present : bool) (w h : JS.Number) :
  consistent [] (mount present w h).
Proof.
  unfold consistent; cbn. repeat split; try discriminate; auto.
Qed.

Lemma step_consistent (events : list Event) (s : AppState) (ev : Event) :
  consistent events s -> consistent (events ++ [ev]) (step s ev).
Proof.
  destruct s as [gum pm pg so pmeta pc pa cbs pd nc cx eff].
  intros H. unfold consistent in H. exec_in H.
  destruct H as (Hc & Hall & Hidle & Hcam & Hgum & Hm & Hmeta & Hun).
  destruct pa as [|[m v]|]; break_hyps.
  all: try (destruct pm; break_hyps).
  all: try (destruct pc as [|[|]|]; break_hyps).
  all: try (destruct v; break_hyps).
  all: try (destruct pg; break_hyps).
  all: try (destruct pmeta as [[|[|]|]|]; break_hyps).
  all: try (destruct gum; break_hyps).
  all: destruct ev; unfold consistent; exec; try solve [settle].
  all: destruct (existsb (Nat.eqb _) _) eqn:Hcall; exec; try solve [settle].
Qed.

Lemma run_consistent (present : bool) (w h : JS.Number)
  (events : list Event) :
  consistent events (run (mount present w h) events).
Proof.
  induction events as [|ev events IH] using rev_ind.
  - apply mount_consistent.
  - rewrite run_snoc. now apply step_consistent.
Qed.
Lemma detectionFunction_effects (model : ObjectDetection) (s : AppState) :
  effects (detectionFunction model s) =
    (effects s ++
     [ModelDetect (nextCall s) model (srcObject s); RequestAnimationFrame])%list.
Proof.
  destruct s. exec. now rewrite <- app_assoc.
Qed.

Lemma tick_effects_eq (model : ObjectDetection) (s : AppState) :
  tick_effects model s =
    [ModelDetect (nextCall s) model (srcObject s); RequestAnimationFrame].
Proof.
  unfold tick_effects. rewrite detectionFunction_effects.
  apply skipn_length_app.
Qed.

Lemma ticks_callbacks (models : list ObjectDetection) :
  forall s,
    animationFrameCallbacks
      (fold_left (fun s model => detectionFunction model s) models s) =
      (animationFrameCallbacks s ++ models)%list.
Proof.
  induction models as [|m models IH]; intros s; cbn [fold_left].
  - now rewrite app_nil_r.
  - rewrite IH. destruct s. exec. now rewrite <- app_assoc.
Qed.

Lemma ticks_pendingDetect (models : list ObjectDetection) :
  forall s,
    List.length
      (pendingDetect
         (fold_left (fun s model => detectionFunction model s) models s)) =
      (List.length (pendingDetect s) + List.length models)%nat.
Proof.
  induction models as [|m models IH]; intros s; cbn [fold_left].
  - cbn. lia.
  - rewrite IH. destruct s. exec. rewrite length_app. cbn. lia.
Qed.

(** An animation frame runs each registered callback, and each registers
    one again: the registered callbacks are the same after the frame. *)
Lemma frame_callbacks (s : AppState) :
  animationFrameCallbacks (step s AnimationFrame) = animationFrameCallbacks s.
Proof.
  cbn [step]. rewrite ticks_callbacks. now destruct s.
Qed.

Lemma frame_pendingDetect (s : AppState) :
  List.length (pendingDetect (step s AnimationFrame)) =
    (List.length (pendingDetect s) +
     List.length (animationFrameCallbacks s))%nat.
Proof.
  cbn [step]. rewrite ticks_pendingDetect. now destruct s.
Qed.

Lemma callbacks_at_most_one (present : bool) (w h : JS.Number)
  (events : list Event) :
  (List.length (animationFrameCallbacks (run (mount present w h) events))
   <= 1)%nat.
Proof.
  destruct (run_consistent present w h events) as (_ & Hall & _).
  destruct (promiseAll _) as [|[m v]|]; break_hyps;
    match goal with H : animationFrameCallbacks _ = _ |- _ => rewrite H end;
    cbn; lia.
Qed.

Lemma renders_need_loop (present : bool) (w h : JS.Number)
  (events : list Event) :
  loop_started (run (mount present w h) events) = false ->
  renders (run (mount present w h) events) = 0%nat.
Proof.
  intros Hl.
  destruct (run_consistent present w h events) as (_ & _ & Hidle & _).
  destruct (Hidle Hl) as [_ Hcalls]. unfold renders. now rewrite Hcalls.
Qed.

Lemma ready_frames (n : nat) :
  animationFrameCallbacks (run ready (repeat AnimationFrame n)) = [mobilenet]
  /\ List.length (pendingDetect (run ready (repeat AnimationFrame n))) = S n.
Proof.
  induction n as [|n [IHc IHp]].
  - split; reflexivity.
  - replace (repeat AnimationFrame (S n))
      with (repeat AnimationFrame n ++ [AnimationFrame])%list
      by (rewrite <- repeat_cons; reflexivity).
    rewrite run_snoc, frame_callbacks, frame_pendingDetect, IHc, IHp.
    split; [reflexivity | cbn; lia].
Qed.

(** C2: in whatever order the browser delivers its events, once
    [detectionFunction] has been called or [drawBBox] has run, both
    promises given to [Promise.all] are fulfilled: the model's, by a
    [ModelLoadResolved] event delivered before, and [promiseCamera];
    and whenever [getUserMedia] was not refused, [promiseCamera] was
    fulfilled by the video's [loadedmetadata] event, delivered before.
    As [events] is any sequence, this holds at every point of a
    session: no tick and no render comes before either signal. *)
Theorem first_tick_after_both_ready (present : bool) (w h : JS.Number)
  (events : list Event) :
  loop_started (run (mount present w h) events) = true \/
  renders (run (mount present w h) events) <> 0%nat ->
  (exists model,
     promiseModel (run (mount present w h) events) = Fulfilled model /\
     In (ModelLoadResolved model) events) /\
  (exists value,
     promiseCamera (run (mount present w h) events) = Fulfilled value) /\
  ((forall error,
      promiseGetUserMedia (run (mount present w h) events) <> Rejected error) ->
   promiseCamera (run (mount present w h) events) = Fulfilled MetadataEvent /\
   promiseMetadata (run (mount present w h) events) =
     Some (Fulfilled MetadataEvent) /\
   In LoadedMetadata events).
Proof.
  intros Hstarted.
  assert (Hl : loop_started (run (mount present w h) events) = true).
  { destruct Hstarted as [Hl|Hr]; [exact Hl|].
    destruct (loop_started _) eqn:E; [reflexivity|].
    now apply renders_need_loop in E. }
  clear Hstarted.
  destruct (run_consistent present w h events)
    as (_ & Hall & _ & Hcam & _ & Hm & Hmeta & _).
  destruct (promiseAll _) as [|[m v]|];
    [destruct Hall as (_ & Hn & _); congruence | |
     destruct Hall as (_ & _ & Hn & _); congruence].
  destruct Hall as (Hpm & Hpc & _). rewrite Hpm, Hpc in *.
  split; [exists m; split; [reflexivity | now apply Hm]|].
  split; [now exists v|].
  intros Hgranted. destruct v.
  - repeat split; [exact Hcam | now apply (Hmeta MetadataEvent)].
  - destruct Hcam as [error Herr]. now apply Hgranted in Herr.
Qed.

(** C9: once the model's load promise is rejected, [detectionFunction]
    is never called, nothing is drawn and no tick is scheduled, whatever
    else happens in the session; the error is logged by the one
    [console.error] of line 152, exactly once. Where the browser has no
    [getUserMedia] the effect has subscribed to nothing, and the
    rejection is reported by the browser as unhandled instead. *)
Theorem model_rejection_never_starts (present : bool) (w h : JS.Number)
  (events : list Event) (error : Error) :
  promiseModel (run (mount present w h) events) = Rejected error ->
  loop_started (run (mount present w h) events) = false /\
  renders (run (mount present w h) events) = 0%nat /\
  animationFrameCallbacks (run (mount present w h) events) = [] /\
  if hasGetUserMedia (run (mount present w h) events)
  then filter is_console_error (effects (run (mount present w h) events)) =
         [ConsoleError error]
  else In (UnhandledRejection error)
         (effects (run (mount present w h) events)).
Proof.
  intros Hrej.
  pose proof (renders_need_loop present w h events) as Hrenders.
  destruct (run_consistent present w h events)
    as (_ & Hall & _ & _ & _ & _ & _ & Hun).
  rewrite Hrej in *.
  assert (Hlog :
    if hasGetUserMedia (run (mount present w h) events)
    then promiseAll (run (mount present w h) events) = Rejected error
    else In (UnhandledRejection error)
           (effects (run (mount present w h) events))).
  { destruct (hasGetUserMedia _); [|now apply Hun].
    destruct (promiseAll _) as [|[m v]|].
    - destruct Hall as (_ & _ & _ & Hno).
      destruct (Hno eq_refl) as [Hno' _]. now destruct (Hno' error).
    - destruct Hall as [Hpm _]. discriminate Hpm.
    - destruct Hall as [Hpm _]. now injection Hpm as ->. }
  assert (Hidle :
    loop_started (run (mount present w h) events) = false /\
    animationFrameCallbacks (run (mount present w h) events) = []).
  { destruct (promiseAll _) as [|[m v]|].
    - now destruct Hall as (? & ? & _).
    - destruct Hall as [Hpm _]. discriminate Hpm.
    - now destruct Hall as (_ & ? & ? & _). }
  destruct Hidle as [Hl Hcbs].
  split; [exact Hl|]. split; [exact (Hrenders Hl)|]. split; [exact Hcbs|].
  destruct (hasGetUserMedia _); [|exact Hlog].
  rewrite Hlog in Hall. destruct Hall as (_ & _ & _ & Herr). exact Herr.
Qed.

(** C3 (amended): on every tick [detectionFunction] first issues
    [model.detect] on the video and then, in the same turn and without
    waiting for that call or any earlier one to settle, asks for the
    next animation frame: the call becomes outstanding, the callback
    becomes registered, and neither depends on what is outstanding.
    With no call settling, every frame adds one more outstanding call:
    after n frames of a ready session n + 1 calls are in flight. *)
Theorem tick_detects_then_schedules :
  (forall model s,
     tick_effects model s =
       [ModelDetect (nextCall s) model (srcObject s);
        RequestAnimationFrame] /\
     pendingDetect (detectionFunction model s) =
       (pendingDetect s ++ [nextCall s])%list /\
     animationFrameCallbacks (detectionFunction model s) =
       (animationFrameCallbacks s ++ [model])%list) /\
  (forall n,
     List.length (pendingDetect (run ready (repeat AnimationFrame n))) =
       S n).
Proof.
  split.
  - intros model s. split; [apply tick_effects_eq|].
    destruct s. split; reflexivity.
  - intros n. apply ready_frames.
Qed.

(** C10: every call of [detectionFunction] asks for exactly one
    animation frame, whatever the state of the [detect] calls; an
    animation frame therefore leaves as many callbacks registered as it
    ran, and in a session, whatever is delivered and in whatever order
    -- [detect] calls resolving, rejecting or never settling -- at most
    one callback is registered at any time. *)
Theorem one_successor_per_tick :
  (forall model s,
     filter is_schedule (tick_effects model s) = [RequestAnimationFrame] /\
     animationFrameCallbacks (detectionFunction model s) =
       (animationFrameCallbacks s ++ [model])%list) /\
  (forall s,
     animationFrameCallbacks (step s AnimationFrame) =
       animationFrameCallbacks s) /\
  (forall present w h events,
     (List.length
        (animationFrameCallbacks (run (mount present w h) events)) <= 1)%nat).
Proof.
  split; [|split].
  - intros model s. rewrite tick_effects_eq. split; [reflexivity|].
    now destruct s.
  - apply frame_callbacks.
  - apply callbacks_at_most_one.
Qed.

(** What a refused camera leads to: the alert is shown once, and as the
    [catch] callback returns normally, [promiseCamera] is fulfilled and
    the loop starts as soon as the model is there. *)
Lemma denied_camera_loop_starts (present : bool) (w h : JS.Number)
  (events : list Event) (error : Error) (model : ObjectDetection) :
  promiseGetUserMedia (run (mount present w h) events) = Rejected error ->
  promiseModel (run (mount present w h) events) = Fulfilled model ->
  filter is_alert (effects (run (mount present w h) events)) =
    [Alert "Activate your camera and refresh the page!"] /\
  loop_started (run (mount present w h) events) = true.
Proof.
  intros Hpg Hpm.
  destruct (run_consistent present w h events)
    as (_ & Hall & _ & _ & Hgum & _).
  rewrite Hpg in Hgum. destruct Hgum as (Hg & _ & Hpc & Halert).
  split; [exact Halert|].
  rewrite Hpm, Hpc in Hall.
  destruct (promiseAll _) as [|[m v]|].
  - destruct Hall as (_ & _ & _ & Hno).
    destruct (Hno Hg) as [_ Hp]. discriminate Hp.
  - now destruct Hall as (_ & _ & _ & ? & _).
  - destruct Hall as [Hp _]. discriminate Hp.
Qed.

(** ** More on the renderer *)

Lemma drawn_shapes (predictions : list Prediction) (ctx : Canvas.Context2D) :
  drawn predictions ctx =
    Canvas.ClearRect 0%float 0%float
      (Canvas.canvas_width ctx) (Canvas.canvas_height ctx)
    :: shapes predictions.
Proof. apply drawn_calls. Qed.

Lemma shapes_no_clear (predictions : list Prediction) :
  existsb Canvas.is_clear (shapes predictions) = false /\
  filter Canvas.is_clear (shapes predictions) = [].
Proof.
  unfold shapes. induction predictions as [|p ps [IHe IHf]].
  - split; reflexivity.
  - cbn [flat_map]. rewrite existsb_app, filter_app, IHe, IHf.
    split; reflexivity.
Qed.

Lemma after_last_clear_app (before after : list Canvas.DrawCall)
  (c : Canvas.DrawCall) :
  Canvas.is_clear c = true -> existsb Canvas.is_clear after = false ->
  after_last_clear (before ++ c :: after) = after.
Proof.
  intros Hc Hafter. induction before as [|b before IH].
  - cbn. now rewrite Hafter, Hc.
  - cbn [app after_last_clear].
    rewrite existsb_app. cbn [existsb]. rewrite Hc, orb_true_r. exact IH.
Qed.

Lemma drawBBox_size (predictions : list Prediction) :
  forall ctx,
    Canvas.canvas_width (fold_left draw_prediction predictions ctx) =
      Canvas.canvas_width ctx /\
    Canvas.canvas_height (fold_left draw_prediction predictions ctx) =
      Canvas.canvas_height ctx.
Proof.
  induction predictions as [|p ps IH]; intros ctx; [split; reflexivity|].
  cbn [fold_left]. destruct (IH (draw_prediction ctx p)) as [Hw Hh].
  rewrite Hw, Hh. split; reflexivity.
Qed.

Lemma forEach_styled (predictions : list Prediction) :
  forall ctx, styled ctx -> styled (fold_left draw_prediction predictions ctx).
Proof.
  induction predictions as [|p ps IH]; intros ctx Hs; [exact Hs|].
  cbn [fold_left]. apply IH. now apply draw_prediction_calls.
Qed.

Lemma drawBBox_keeps_size (predictions : list Prediction)
  (ctx : Canvas.Context2D) :
  Canvas.canvas_width (drawBBox predictions ctx) = Canvas.canvas_width ctx /\
  Canvas.canvas_height (drawBBox predictions ctx) = Canvas.canvas_height ctx.
Proof.
  unfold drawBBox.
  match goal with
  | |- context [fold_left draw_prediction predictions ?c] =>
      destruct (drawBBox_size predictions c) as [Hw Hh]
  end.
  split; [exact Hw | exact Hh].
Qed.

(** X1: what one run of [drawBBox] draws depends on the context only
    through the size of its canvas: the attributes an earlier run or
    other code left behind are overwritten before the first shape, so
    two contexts of the same size receive the same calls. The run leaves
    the canvas size as it was and the four attributes it sets in place. *)
Theorem drawBBox_forgets_attributes (predictions : list Prediction)
  (ctx1 ctx2 : Canvas.Context2D) :
  Canvas.canvas_width ctx1 = Canvas.canvas_width ctx2 ->
  Canvas.canvas_height ctx1 = Canvas.canvas_height ctx2 ->
  drawn predictions ctx1 = drawn predictions ctx2 /\
  styled (drawBBox predictions ctx1) /\
  Canvas.canvas_width (drawBBox predictions ctx1) = Canvas.canvas_width ctx1 /\
  Canvas.canvas_height (drawBBox predictions ctx1) = Canvas.canvas_height ctx1.
Proof.
  intros Hw Hh. split; [now rewrite !drawn_calls, Hw, Hh|].
  split; [|apply drawBBox_keeps_size].
  unfold drawBBox. apply forEach_styled. repeat split.
Qed.

(** X2: after a run of [drawBBox] the calls that follow the last clear
    are the shapes of that run's predictions and nothing else, whatever
    was drawn before; so of two runs in a row only the second list's
    shapes remain, after a clear of the same, unchanged size. *)
Theorem last_render_wins (first second : list Prediction)
  (ctx : Canvas.Context2D) :
  after_last_clear (Canvas.calls (drawBBox second ctx)) = shapes second /\
  after_last_clear (Canvas.calls (drawBBox second (drawBBox first ctx))) =
    shapes second /\
  Canvas.calls (drawBBox second (drawBBox first ctx)) =
    (Canvas.calls ctx ++ drawn first ctx ++ drawn second ctx)%list.
Proof.
  assert (Hlast : forall c,
    after_last_clear (Canvas.calls (drawBBox second c)) = shapes second).
  { intros c. rewrite drawBBox_calls. apply after_last_clear_app;
      [reflexivity | apply shapes_no_clear]. }
  split; [apply Hlast|]. split; [apply Hlast|].
  destruct (drawBBox_keeps_size first ctx) as (Hw & Hh).
  rewrite (drawBBox_calls second), (drawBBox_calls first).
  rewrite !drawn_calls, Hw, Hh, <- app_assoc. reflexivity.
Qed.

(** ** More on the session *)

Lemma renders_drawBBox (predictions : list Prediction)
  (ctx : Canvas.Context2D) :
  List.length (filter Canvas.is_clear (Canvas.calls (drawBBox predictions ctx)))
  = S (List.length (filter Canvas.is_clear (Canvas.calls ctx))).
Proof.
  rewrite drawBBox_calls, filter_app. cbn [filter Canvas.is_clear].
  fold (shapes predictions). rewrite (proj2 (shapes_no_clear predictions)).
  rewrite length_app. cbn. lia.
Qed.

Lemma remove_call_absent (call : nat) (l : list nat) :
  ~ In call l -> remove_call call l = l.
Proof.
  unfold remove_call. induction l as [|c l IH]; intros Hnotin.
  - reflexivity.
  - cbn [filter]. destruct (Nat.eqb_spec c call) as [->|_].
    + destruct Hnotin. now left.
    + cbn [negb]. f_equal. apply IH. intros Hin. apply Hnotin. now right.
Qed.

Lemma remove_call_length (call : nat) (l : list nat) :
  NoDup l -> existsb (Nat.eqb call) l = true ->
  S (List.length (remove_call call l)) = List.length l.
Proof.
  induction l as [|c l IH]; intros Hnd Hin.
  - discriminate Hin.
  - inversion Hnd as [|? ? Hnotin Hnd']; subst.
    cbn [existsb] in Hin. unfold remove_call in *. cbn [filter].
    destruct (Nat.eqb_spec c call) as [->|Hne].
    + cbn [negb List.length]. f_equal.
      fold (remove_call call l). now rewrite remove_call_absent.
    + destruct (Nat.eqb_spec call c) as [->|_]; [now destruct Hne|].
      cbn [negb orb List.length] in *. f_equal. now apply IH.
Qed.

Lemma remove_call_keeps (call : nat) (l : list nat) (P : nat -> Prop) :
  NoDup l -> Forall P l ->
  NoDup (remove_call call l) /\ Forall P (remove_call call l).
Proof.
  intros Hnd Hall. unfold remove_call. split.
  - now apply NoDup_filter.
  - apply Forall_forall. intros c Hc. apply filter_In in Hc as [Hc _].
    revert c Hc. now apply Forall_forall.
Qed.

Lemma issue_call (call : nat) (l : list nat) :
  NoDup l -> Forall (fun c => (c < call)%nat) l ->
  NoDup (l ++ [call]) /\ Forall (fun c => (c < S call)%nat) (l ++ [call]).
Proof.
  intros Hnd Hall. split.
  - apply NoDup_app; [assumption | repeat constructor; intros [] | ].
    intros c Hc [<-|[]]. rewrite Forall_forall in Hall.
    specialize (Hall _ Hc). lia.
  - apply Forall_app. split; [|repeat constructor].
    eapply Forall_impl; [|exact Hall]. cbn. intros; lia.
Qed.

Ltac count_norm :=
  rewrite ?filter_app, ?length_app in *;
  cbn [filter is_detect is_unhandled is_camera_report is_alert
       is_console_error negb List.length app] in *.

Lemma step_numbered (events : list Event) (s : AppState) (ev : Event) :
  consistent events s -> numbered s -> numbered (step s ev).
Proof.
  destruct s as [gum pm pg so pmeta pc pa cbs pd nc cx eff].
  intros H N. unfold consistent in H. exec_in H.
  unfold numbered, renders in N. exec_in N.
  destruct H as (Hc & Hall & Hidle & Hcam & Hgum & Hm & Hmeta & Hun).
  destruct N as (Nd & Nlt & Ndet & Nsum).
  destruct pa as [|[m v]|]; break_hyps.
  all: try (destruct pm; break_hyps).
  all: try (destruct pc as [|[|]|]; break_hyps).
  all: try (destruct v; break_hyps).
  all: try (destruct pg; break_hyps).
  all: try (destruct pmeta as [[|[|]|]|]; break_hyps).
  all: try (destruct gum; break_hyps).
  all: destruct ev; unfold numbered, renders; exec.
  all: try (destruct (existsb (Nat.eqb _) _) eqn:Hcall; exec).
  all: count_norm; rewrite ?renders_drawBBox.
  all: try pose proof (remove_call_length _ _ Nd Hcall).
  all: repeat split; intros; try assumption; try discriminate; try lia.
  all: first
    [ apply (proj1 (issue_call _ _ Nd Nlt))
    | apply (proj2 (issue_call _ _ Nd Nlt))
    | apply (proj1 (remove_call_keeps _ _ _ Nd Nlt))
    | apply (proj2 (remove_call_keeps _ _ _ Nd Nlt))
    | idtac ].
Qed.

Lemma no_detect_Forall (P : ObjectDetection -> option MediaStream -> Prop)
  (eff : list Effect) :
  existsb is_detect eff = false ->
  Forall (fun e =>
            match e with
            | ModelDetect _ model video => P model video
            | _ => True
            end) eff.
Proof.
  induction eff as [|e eff IH]; intros Hno; [constructor|].
  cbn [existsb] in Hno. apply orb_false_iff in Hno as [He Hno].
  constructor; [|now apply IH]. now destruct e.
Qed.

Lemma step_streamed (events : list Event) (s : AppState) (ev : Event) :
  consistent events s -> streamed s -> streamed (step s ev).
Proof.
  destruct s as [gum pm pg so pmeta pc pa cbs pd nc cx eff].
  intros H N. unfold consistent in H. exec_in H.
  unfold streamed in N. exec_in N.
  destruct H as (Hc & Hall & Hidle & Hcam & Hgum & Hm & Hmeta & Hun).
  destruct N as (Nso & Ndet).
  destruct pa as [|[m v]|]; break_hyps.
  all: try (destruct pm; break_hyps).
  all: try (destruct pc as [|[|]|]; break_hyps).
  all: try (destruct v; break_hyps).
  all: try (destruct pg; break_hyps).
  all: try (destruct pmeta as [[|[|]|]|]; break_hyps).
  all: try (destruct gum; break_hyps).
  all: destruct ev; unfold streamed; exec.
  all: try (destruct (existsb (Nat.eqb _) _) eqn:Hcall; exec).
  all: split; [reflexivity || assumption|].
  all: rewrite ?Forall_app.
  all: repeat split; try assumption; try (repeat constructor; fail).
  all: try (apply no_detect_Forall; assumption).
Qed.

Lemma step_reported (present : bool) (events : list Event) (s : AppState)
  (ev : Event) :
  consistent events s -> reported present s -> reported present (step s ev).
Proof.
  destruct s as [gum pm pg so pmeta pc pa cbs pd nc cx eff].
  intros H N. unfold consistent in H. exec_in H.
  unfold reported in N. exec_in N.
  destruct H as (Hc & Hall & Hidle & Hcam & Hgum & Hm & Hmeta & Hun).
  destruct N as (Ngum & Nrep & Ninert). subst present.
  destruct pa as [|[m v]|]; break_hyps.
  all: try (destruct pm; break_hyps).
  all: try (destruct pc as [|[|]|]; break_hyps).
  all: try (destruct v; break_hyps).
  all: try (destruct pg; break_hyps).
  all: try (destruct pmeta as [[|[|]|]|]; break_hyps).
  all: try (destruct gum; break_hyps).
  all: destruct ev; unfold reported; exec.
  all: try (destruct (existsb (Nat.eqb _) _) eqn:Hcall; exec).
  all: count_norm.
  all: rewrite ?Nrep.
  all: repeat split; intros; try assumption; try discriminate;
         try reflexivity.
  all: rewrite app_nil_r; assumption.
Qed.

Lemma run_observed (present : bool) (w h : JS.Number) (events : list Event) :
  numbered (run (mount present w h) events) /\
  streamed (run (mount present w h) events) /\
  reported present (run (mount present w h) events).
Proof.
  induction events as [|ev events (IHn & IHs & IHr)] using rev_ind.
  - repeat split; try constructor; try discriminate; reflexivity.
  - pose proof (run_consistent present w h events) as Hc.
    rewrite run_snoc.
    split; [now apply (step_numbered events)|].
    split; [now apply (step_streamed events) | now apply (step_reported _ events)].
Qed.

Lemma detectionFunction_ctx (model : ObjectDetection) (s : AppState) :
  ctx (detectionFunction model s) = ctx s.
Proof. now destruct s. Qed.

Lemma ticks_ctx (models : list ObjectDetection) :
  forall s,
    ctx (fold_left (fun s model => detectionFunction model s) models s) = ctx s.
Proof.
  induction models as [|m models IH]; intros s; cbn [fold_left].
  - reflexivity.
  - now rewrite IH, detectionFunction_ctx.
Qed.

Lemma settle_promiseAll_ctx (s : AppState) : ctx (settle_promiseAll s) = ctx s.
Proof.
  unfold settle_promiseAll.
  destruct (hasGetUserMedia s && is_pending (promiseAll s)); [|reflexivity].
  destruct (promiseModel s), (promiseCamera s);
    rewrite ?detectionFunction_ctx; now destruct s.
Qed.

Lemma step_ctx (s : AppState) (ev : Event) :
  ctx (step s ev) = ctx s \/
  exists call predictions,
    ev = DetectResolved call predictions /\
    existsb (Nat.eqb call) (pendingDetect s) = true /\
    ctx (step s ev) = drawBBox predictions (ctx s).
Proof.
  destruct ev; cbn [step].
  - left. destruct (is_pending (promiseModel s)); [|reflexivity].
    rewrite settle_promiseAll_ctx. now destruct s.
  - left. destruct (is_pending (promiseModel s)); [|reflexivity].
    cbv zeta. destruct (hasGetUserMedia _);
      rewrite ?settle_promiseAll_ctx; now destruct s.
  - left.
    destruct (hasGetUserMedia s && is_pending (promiseGetUserMedia s));
      now destruct s.
  - left.
    destruct (hasGetUserMedia s && is_pending (promiseGetUserMedia s));
      [|reflexivity].
    cbv zeta. rewrite settle_promiseAll_ctx. now destruct s.
  - left. destruct (promiseMetadata s) as [[| |]|]; try reflexivity.
    cbv zeta. rewrite settle_promiseAll_ctx. now destruct s.
  - left. rewrite ticks_ctx. now destruct s.
  - destruct (existsb (Nat.eqb call) (pendingDetect s)) eqn:Hcall.
    + right. exists call, predictions. repeat split. now destruct s.
    + now left.
  - left. destruct (existsb (Nat.eqb call) (pendingDetect s));
      now destruct s.
Qed.

(** X4: the canvas is touched by nothing but the resolution of an
    outstanding [detect] call, and then by one whole run of [drawBBox] on
    that call's predictions: no other event -- a settlement of the model
    or camera promises, an animation frame, a rejected [detect] call, a
    resolution for a call that is not outstanding -- makes a drawing
    call. *)
Theorem only_resolved_detect_draws (s : AppState) (ev : Event) :
  ctx (step s ev) = ctx s \/
  exists call predictions,
    ev = DetectResolved call predictions /\
    existsb (Nat.eqb call) (pendingDetect s) = true /\
    ctx (step s ev) = drawBBox predictions (ctx s).
Proof. apply step_ctx. Qed.

Lemma renders_whole (w h : JS.Number) (batches : list (list Prediction)) :
  List.length
    (filter Canvas.is_clear
       (flat_map (fun ps => Canvas.ClearRect 0%float 0%float w h :: shapes ps)
          batches)) = List.length batches.
Proof.
  induction batches as [|ps batches IH]; [reflexivity|].
  cbn [flat_map]. rewrite filter_app. cbn [filter Canvas.is_clear].
  rewrite (proj2 (shapes_no_clear ps)), length_app, IH. reflexivity.
Qed.

(** X3: in every session the canvas keeps the size of the window as it
    was read when the component rendered, and what the canvas has
    received is a sequence of whole renders: for some lists of
    predictions, one per run of [drawBBox], a clear from (0, 0) over
    that width and height followed by that list's shapes. *)
Theorem canvas_receives_whole_renders (present : bool) (w h : JS.Number)
  (events : list Event) :
  Canvas.canvas_width (ctx (run (mount present w h) events)) = w /\
  Canvas.canvas_height (ctx (run (mount present w h) events)) = h /\
  exists batches : list (list Prediction),
    Canvas.calls (ctx (run (mount present w h) events)) =
      flat_map (fun ps => Canvas.ClearRect 0%float 0%float w h :: shapes ps)
        batches /\
    renders (run (mount present w h) events) = List.length batches.
Proof.
  induction events as [|ev events (IHw & IHh & batches & IHc & IHr)]
    using rev_ind.
  - repeat split. exists []. split; reflexivity.
  - rewrite run_snoc.
    destruct (step_ctx (run (mount present w h) events) ev)
      as [Hsame|(call & ps & _ & _ & Hdraw)].
    + unfold renders in *. rewrite Hsame. repeat split; try assumption.
      exists batches. now split.
    + unfold renders in *. rewrite Hdraw.
      destruct (drawBBox_keeps_size ps (ctx (run (mount present w h) events)))
        as (Hw & Hh).
      rewrite Hw, Hh. repeat split; try assumption.
      exists (batches ++ [ps])%list.
      rewrite drawBBox_calls, IHc, IHw, IHh, flat_map_app.
      cbn [flat_map]. rewrite app_nil_r. split; [reflexivity|].
      fold (shapes ps). rewrite <- IHc.
      rewrite filter_app, length_app, IHr. cbn [filter Canvas.is_clear].
      rewrite (proj2 (shapes_no_clear ps)), length_app. cbn. lia.
Qed.

(** X5: in every session the component calls [console.log] and [alert]
    only to report a refused camera: if [getUserMedia] was rejected, the
    error was logged and then the alert shown, once each and in that
    order; otherwise neither has been called. *)
Theorem camera_refusal_reported_once (present : bool) (w h : JS.Number)
  (events : list Event) :
  filter is_camera_report (effects (run (mount present w h) events)) =
    match promiseGetUserMedia (run (mount present w h) events) with
    | Rejected error =>
        [ConsoleLog error; Alert "Activate your camera and refresh the page!"]
    | _ => []
    end.
Proof.
  destruct (run_observed present w h events) as (_ & _ & _ & Hrep & _).
  exact Hrep.
Qed.

Lemma inert_idle (w h : JS.Number) (events : list Event) :
  renders (run (mount false w h) events) = 0%nat /\
  pendingDetect (run (mount false w h) events) = [].
Proof.
  destruct (run_observed false w h events) as (_ & _ & _ & _ & Hinert).
  destruct (Hinert eq_refl) as (Hall & _).
  destruct (run_consistent false w h events) as (_ & Hc & Hidle & _).
  rewrite Hall in Hc. destruct Hc as (_ & Hloop & _).
  destruct (Hidle Hloop) as [Hp Hcalls].
  split; [|exact Hp]. unfold renders. now rewrite Hcalls.
Qed.


Lemma ticks_effects (models : list ObjectDetection) :
  forall s, exists more,
    effects (fold_left (fun s model => detectionFunction model s) models s) =
      (effects s ++ more)%list.
Proof.
  induction models as [|m models IH]; intros s; cbn [fold_left].
  - exists []. now rewrite app_nil_r.
  - destruct (IH (detectionFunction m s)) as [more Hmore].
    rewrite Hmore, detectionFunction_effects, <- app_assoc. eauto.
Qed.

Lemma settle_promiseAll_effects (s : AppState) :
  exists more, effects (settle_promiseAll s) = (effects s ++ more)%list.
Proof.
  unfold settle_promiseAll.
  destruct (hasGetUserMedia s && is_pending (promiseAll s));
    [|exists []; now rewrite app_nil_r].
  destruct (promiseModel s), (promiseCamera s);
    rewrite ?detectionFunction_effects;
    try (exists []; now rewrite app_nil_r);
    destruct s; cbn; eauto.
Qed.

(** The log only grows. *)
Lemma step_effects (s : AppState) (ev : Event) :
  exists more, effects (step s ev) = (effects s ++ more)%list.
Proof.
  assert (Hsame : exists more, effects s = (effects s ++ more)%list)
    by (exists []; now rewrite app_nil_r).
  destruct ev; cbn [step].
  - destruct (is_pending (promiseModel s)); [|exact Hsame].
    destruct (settle_promiseAll_effects
                (set_promiseModel (Fulfilled model) s)) as [more ->].
    destruct s; cbn; eauto.
  - destruct (is_pending (promiseModel s)); [|exact Hsame]. cbv zeta.
    destruct (hasGetUserMedia _).
    + destruct (settle_promiseAll_effects
                  (set_promiseModel (Rejected error) s)) as [more ->].
      destruct s; cbn; eauto.
    + destruct s; cbn; eauto.
  - destruct (hasGetUserMedia s && is_pending (promiseGetUserMedia s));
      [|exact Hsame]. destruct s; cbn. exists []. now rewrite app_nil_r.
  - destruct (hasGetUserMedia s && is_pending (promiseGetUserMedia s));
      [|exact Hsame]. cbv zeta.
    match goal with
    | |- context [settle_promiseAll ?t] =>
        destruct (settle_promiseAll_effects t) as [more ->]
    end.
    destruct s; cbn. rewrite <- !app_assoc. eauto.
  - destruct (promiseMetadata s) as [[| |]|]; try exact Hsame. cbv zeta.
    match goal with
    | |- context [settle_promiseAll ?t] =>
        destruct (settle_promiseAll_effects t) as [more ->]
    end.
    destruct s; cbn; eauto.
  - destruct (ticks_effects (animationFrameCallbacks s)
                (set_animationFrameCallbacks [] s)) as [more ->].
    destruct s; cbn; eauto.
  - destruct (existsb (Nat.eqb call) (pendingDetect s)); [|exact Hsame].
    destruct s; cbn. exists []. now rewrite app_nil_r.
  - destruct (existsb (Nat.eqb call) (pendingDetect s)); [|exact Hsame].
    destruct s; cbn; eauto.
Qed.

Lemma run_app (s : AppState) (events more : list Event) :
  run s (events ++ more) = run (run s events) more.
Proof. unfold run. apply fold_left_app. Qed.

Lemma loop_stays_started (s : AppState) (more : list Event) :
  loop_started s = true -> loop_started (run s more) = true.
Proof.
  revert s. induction more as [|ev more IH]; intros s Hs; [exact Hs|].
  cbn [run fold_left]. apply IH. unfold loop_started in *.
  destruct (step_effects s ev) as [l ->].
  now rewrite existsb_app, Hs.
Qed.

(** X7: the loop has no way to stop. Once [detectionFunction] has been
    called in a session, then whatever is delivered afterwards -- frames,
    [detect] calls resolving or rejecting, late settlements -- exactly
    one animation frame callback is registered, and it holds the model
    that [promiseModel] was fulfilled with. *)
Theorem loop_never_stops (present : bool) (w h : JS.Number)
  (events more : list Event) :
  loop_started (run (mount present w h) events) = true ->
  loop_started (run (mount present w h) (events ++ more)) = true /\
  exists model,
    promiseModel (run (mount present w h) (events ++ more)) = Fulfilled model
    /\
    animationFrameCallbacks (run (mount present w h) (events ++ more)) =
      [model].
Proof.
  intros Hstarted.
  assert (Hl : loop_started (run (mount present w h) (events ++ more)) = true)
    by (rewrite run_app; now apply loop_stays_started).
  split; [exact Hl|].
  destruct (run_consistent present w h (events ++ more)) as (_ & Hall & _).
  destruct (promiseAll _) as [|[m v]|].
  - destruct Hall as (_ & Hn & _). congruence.
  - destruct Hall as (Hpm & _ & Hcbs & _). now exists m.
  - destruct Hall as (_ & _ & Hn & _). congruence.
Qed.

(** X8: the [detect] calls of a session are accounted for. The
    outstanding calls are distinct; as many calls were logged as were
    numbered; there are never more renders and outstanding calls than
    calls made; and in a browser with [getUserMedia] every call made is
    outstanding, was drawn by exactly one run of [drawBBox], or was
    rejected and left unhandled. *)
Theorem detect_calls_accounted (present : bool) (w h : JS.Number)
  (events : list Event) :
  NoDup (pendingDetect (run (mount present w h) events)) /\
  List.length (filter is_detect (effects (run (mount present w h) events))) =
    nextCall (run (mount present w h) events) /\
  (renders (run (mount present w h) events) +
   List.length (pendingDetect (run (mount present w h) events))
   <= nextCall (run (mount present w h) events))%nat /\
  (renders (run (mount true w h) events) +
   List.length (pendingDetect (run (mount true w h) events)) +
   List.length (filter is_unhandled (effects (run (mount true w h) events))))%nat
  = nextCall (run (mount true w h) events).
Proof.
  destruct (run_observed present w h events)
    as ((Hnd & _ & Hdet & Hsum) & _ & Hgum & _).
  destruct (run_observed true w h events)
    as ((_ & _ & _ & Hsum') & _ & Hgum' & _).
  split; [exact Hnd|]. split; [exact Hdet|]. split; [|exact (Hsum' Hgum')].
  destruct present; [specialize (Hsum Hgum); lia|].
  destruct (inert_idle w h events) as (Hr & Hp). rewrite Hr, Hp. cbn. lia.
Qed.

(** X9: every [detect] call of a session was made on the model that
    [promiseModel] is fulfilled with and on the video as it still is:
    carrying the stream [getUserMedia] resolved to, or no stream at all
    when [getUserMedia] has not resolved. *)
Theorem detect_uses_loaded_model (present : bool) (w h : JS.Number)
  (events : list Event) (call : nat) (model : ObjectDetection)
  (video : option MediaStream) :
  In (ModelDetect call model video)
    (effects (run (mount present w h) events)) ->
  promiseModel (run (mount present w h) events) = Fulfilled model /\
  video = srcObject (run (mount present w h) events) /\
  match promiseGetUserMedia (run (mount present w h) events) with
  | Fulfilled streamCamera => video = Some streamCamera
  | _ => video = None
  end.
Proof.
  intros Hin.
  destruct (run_observed present w h events) as (_ & (Hso & Hall) & _).
  rewrite Forall_forall in Hall. destruct (Hall _ Hin) as [Hpm Hv].
  split; [exact Hpm|]. split; [exact Hv|].
  rewrite Hv. destruct (promiseGetUserMedia _); exact Hso.
Qed.

Lemma remove_call_other (call other : nat) (l : list nat) :
  call <> other ->
  existsb (Nat.eqb call) (remove_call other l) = existsb (Nat.eqb call) l.
Proof.
  intros Hne. unfold remove_call. induction l as [|c l IH]; [reflexivity|].
  cbn [filter existsb]. destruct (Nat.eqb_spec c other) as [->|_].
  - cbn [negb]. rewrite IH.
    destruct (Nat.eqb_spec call other); [contradiction | reflexivity].
  - cbn [negb existsb]. now rewrite IH.
Qed.

(** X10: results are applied in the order in which the calls resolve,
    not in the order in which they were made. When a call made earlier
    resolves after one made later, both are drawn, and what remains on
    the canvas after the last clear is the shapes of the earlier call's
    predictions: the older result replaces the newer one. *)
Theorem older_result_replaces_newer (s : AppState) (older newer : nat)
  (stale fresh : list Prediction) :
  (older < newer)%nat ->
  existsb (Nat.eqb older) (pendingDetect s) = true ->
  existsb (Nat.eqb newer) (pendingDetect s) = true ->
  after_last_clear
    (Canvas.calls
       (ctx (run s [DetectResolved newer fresh; DetectResolved older stale])))
    = shapes stale /\
  renders (run s [DetectResolved newer fresh; DetectResolved older stale]) =
    S (S (renders s)) /\
  pendingDetect
    (run s [DetectResolved newer fresh; DetectResolved older stale]) =
    remove_call older (remove_call newer (pendingDetect s)).
Proof.
  intros Hlt Holder Hnewer.
  assert (Hstill :
    existsb (Nat.eqb older) (remove_call newer (pendingDetect s)) = true)
    by (rewrite remove_call_other; [exact Holder | lia]).
  cbn [run fold_left step]. rewrite Hnewer. cbv zeta.
  destruct s as [gum pm pg so pmeta pc pa cbs pd nc cx eff].
  cbn [step pendingDetect set_ctx set_pendingDetect ctx hasGetUserMedia
       promiseModel promiseGetUserMedia srcObject promiseMetadata
       promiseCamera promiseAll animationFrameCallbacks nextCall effects]
    in *.
  rewrite Hstill. unfold renders.
  cbn [pendingDetect set_ctx set_pendingDetect ctx hasGetUserMedia
       promiseModel promiseGetUserMedia srcObject promiseMetadata
       promiseCamera promiseAll animationFrameCallbacks nextCall effects].
  split; [|split; [|reflexivity]].
  - rewrite drawBBox_calls. apply after_last_clear_app;
      [reflexivity | apply shapes_no_clear].
  - now rewrite !renders_drawBBox.
Qed.

(** X11: for a score between 0 and 1 the number in the label is
    [score * 100] rounded to the nearest hundredth: the text is the
    class, a space, and the fixed notation of the integer n of
    hundredths for which n/100 is nearest to the binary64 product
    m * 2^e, the larger n when the product lies half way. *)
Theorem label_is_nearest_hundredth (p : Prediction) :
  (0 <=? score p)%float = true -> (score p <=? 1)%float = true ->
  exists n : Z,
    predictionText p = class p ++ " " ++ JS.fixed_notation n 2 /\
    match Prim2SF (score p * 100)%float with
    | S754_zero _ => n = 0
    | S754_finite _ m e =>
        (2 * n - 1) * 2 ^ Z.max (- e) 0
        <= 2 * (Z.pos m * 10 ^ 2 * 2 ^ Z.max e 0)
        < (2 * n + 1) * 2 ^ Z.max (- e) 0
    | _ => False
    end.
Proof.
  intros H0 H1. pose proof (unit_score_product (score p) H0 H1) as Hp.
  unfold predictionText, JS.toFixed.
  destruct (Prim2SF (score p * 100)%float) as [sg|sg| |sg m e];
    try contradiction.
  - exists 0. split; reflexivity.
  - destruct Hp as [-> ->]. exists (JS.scaled_round m e 2).
    split; [reflexivity|]. apply (scaled_round_nearest m e 2).
Qed.

(** X12: an animation frame of a session whose loop has started runs
    one tick and no more: it makes one [detect] call, numbered next, on
    the loaded model and the video as it is, which becomes outstanding
    beside those already in flight, and asks for one animation frame. *)
Theorem frame_runs_one_tick (present : bool) (w h : JS.Number)
  (events : list Event) :
  loop_started (run (mount present w h) events) = true ->
  exists model,
    promiseModel (run (mount present w h) events) = Fulfilled model /\
    effects (step (run (mount present w h) events) AnimationFrame) =
      (effects (run (mount present w h) events) ++
       [ModelDetect (nextCall (run (mount present w h) events)) model
          (srcObject (run (mount present w h) events));
        RequestAnimationFrame])%list /\
    pendingDetect (step (run (mount present w h) events) AnimationFrame) =
      (pendingDetect (run (mount present w h) events) ++
       [nextCall (run (mount present w h) events)])%list /\
    nextCall (step (run (mount present w h) events) AnimationFrame) =
      S (nextCall (run (mount present w h) events)).
Proof.
  intros Hstarted.
  destruct (run_consistent present w h events) as (_ & Hall & _).
  destruct (promiseAll _) as [|[m v]|];
    [destruct Hall as (_ & Hn & _); congruence | |
     destruct Hall as (_ & _ & Hn & _); congruence].
  destruct Hall as (Hpm & _ & Hcbs & _). exists m. split; [exact Hpm|].
  cbn [step]. rewrite Hcbs. cbn [fold_left].
  rewrite detectionFunction_effects.
  destruct (run (mount present w h) events). repeat split.
Qed.

(** X13: the loop starts no later than it can: in a browser with
    [getUserMedia], as soon as [promiseModel] and [promiseCamera] are
    both fulfilled, [detectionFunction] has been called, within the task
    that fulfilled the second of them. *)
Theorem loop_starts_when_both_ready (w h : JS.Number) (events : list Event)
  (model : ObjectDetection) (value : CameraValue) :
  promiseModel (run (mount true w h) events) = Fulfilled model ->
  promiseCamera (run (mount true w h) events) = Fulfilled value ->
  loop_started (run (mount true w h) events) = true /\
  promiseAll (run (mount true w h) events) = Fulfilled (model, value).
Proof.
  intros Hpm Hpc.
  destruct (run_observed true w h events) as (_ & _ & Hgum & _).
  destruct (run_consistent true w h events) as (_ & Hall & _).
  rewrite Hpm, Hpc in Hall.
  destruct (promiseAll _) as [|[m v]|].
  - destruct Hall as (_ & _ & _ & Hno).
    destruct (Hno Hgum) as [_ Hp]. discriminate Hp.
  - destruct Hall as (Hm & Hv & _ & Hl & _).
    injection Hm as <-. injection Hv as <-. now split.
  - destruct Hall as [Hp _]. discriminate Hp.
Qed.

(** X14: the video carries a stream exactly when [getUserMedia] has
    resolved, and it is the stream [getUserMedia] resolved to: nothing
    is attached before, nothing after a refusal, and the stream is never
    replaced. *)
Theorem video_stream_is_granted_stream (present : bool) (w h : JS.Number)
  (events : list Event) :
  srcObject (run (mount present w h) events) =
    match promiseGetUserMedia (run (mount present w h) events) with
    | Fulfilled streamCamera => Some streamCamera
    | _ => None
    end.
Proof.
  destruct (run_observed present w h events) as (_ & (Hso & _) & _).
  destruct (promiseGetUserMedia _); exact Hso.
Qed.

End App.

(** ** Concrete sessions *)

(** C1: a session in which the model loads and the camera is refused.
    The refusal is logged and the alert is shown once; the [catch]
    callback then returns, which fulfils [promiseCamera], so
    [Promise.all] is fulfilled and [detectionFunction] is called on a
    video without a stream, and schedules its next tick. If that
    [detect] call resolves, [drawBBox] runs. *)
Theorem camera_denied_session :
  effects
    (run no_exponent_notation fixed_pitch
       (mount true 640%float 480%float) denied_events) =
    [ConsoleLog "NotAllowedError";
     Alert "Activate your camera and refresh the page!";
     ModelDetect 0 mobilenet None;
     RequestAnimationFrame] /\
  loop_started
    (run no_exponent_notation fixed_pitch
       (mount true 640%float 480%float) denied_events) = true /\
  renders
    (run no_exponent_notation fixed_pitch
       (mount true 640%float 480%float)
       (denied_events ++ [DetectResolved 0 []])) = 1%nat.
Proof. vm_compute. repeat split. Qed.

(** The claim of C3 fails on a tick of a ready session: the first call
    of the tick is [model.detect], the scheduling call comes second. *)
Lemma tick_does_not_schedule_first :
  tick_effects mobilenet (ready no_exponent_notation fixed_pitch) =
    [ModelDetect 1 mobilenet (Some (mkMediaStream 1)); RequestAnimationFrame]
  /\
  schedules_before_detect
    (tick_effects mobilenet (ready no_exponent_notation fixed_pitch)) = false.
Proof. vm_compute. split; reflexivity. Qed.

(** The claim of C5 fails on the spec's rendering scenario: the text
    height is 12 and the label background has height -12, which is not
    more than 12 in magnitude, while its width, 76, is the measured 72
    plus 4, and its left edge, 8, is not the outline's 10. *)
Lemma label_background_not_taller_than_text :
  JS.parseInt "12px sans-serif" = 12%float /\
  fixed_pitch "12px sans-serif"
    (predictionText no_exponent_notation person) = 72%float /\
  filter Canvas.is_fillRect
    (drawn no_exponent_notation fixed_pitch [person]
       (Canvas.getContext 640%float 480%float)) =
    [Canvas.FillRect "#0F0" 8%float 20%float 76%float (-12)%float] /\
  forallb (taller_than_text (JS.parseInt "12px sans-serif"))
    (filter Canvas.is_fillRect
       (drawn no_exponent_notation fixed_pitch [person]
          (Canvas.getContext 640%float 480%float))) = false.
Proof. vm_compute. repeat split. Qed.

Lemma first_tick_after_both_ready_witness :
  (exists model,
     promiseModel
       (run no_exponent_notation fixed_pitch
          (mount true 640%float 480%float) ready_events) = Fulfilled model /\
     In (ModelLoadResolved model) ready_events) /\
  promiseCamera
    (run no_exponent_notation fixed_pitch
       (mount true 640%float 480%float) ready_events) =
    Fulfilled MetadataEvent /\
  promiseMetadata
    (run no_exponent_notation fixed_pitch
       (mount true 640%float 480%float) ready_events) =
    Some (Fulfilled MetadataEvent) /\
  In LoadedMetadata ready_events.
Proof.
  destruct (first_tick_after_both_ready no_exponent_notation fixed_pitch
              true 640%float 480%float ready_events)
    as (Hmodel & _ & Hcamera).
  - left. vm_compute. reflexivity.
  - split; [exact Hmodel|]. apply Hcamera.
    intros error Hrejected. vm_compute in Hrejected. discriminate Hrejected.
Defined.

Lemma label_text_two_decimals_witness :
  exists int frac : string,
    predictionText no_exponent_notation person =
      class person ++ " " ++ int ++ "." ++ frac /\
    int <> "" /\ all_digits int = true /\
    String.length frac = 2%nat /\ all_digits frac = true.
Proof.
  apply (proj1 (proj2 (label_text_two_decimals no_exponent_notation
                         fixed_pitch)) person).
  - vm_compute. reflexivity.
  - vm_compute. reflexivity.
Defined.

Lemma model_rejection_never_starts_witness :
  loop_started
    (run no_exponent_notation fixed_pitch (mount true 640%float 480%float)
       [GetUserMediaResolved (mkMediaStream 1); ModelLoadRejected "load";
        LoadedMetadata; AnimationFrame]) = false /\
  renders
    (run no_exponent_notation fixed_pitch (mount true 640%float 480%float)
       [GetUserMediaResolved (mkMediaStream 1); ModelLoadRejected "load";
        LoadedMetadata; AnimationFrame]) = 0%nat /\
  animationFrameCallbacks
    (run no_exponent_notation fixed_pitch (mount true 640%float 480%float)
       [GetUserMediaResolved (mkMediaStream 1); ModelLoadRejected "load";
        LoadedMetadata; AnimationFrame]) = [] /\
  filter is_console_error
    (effects
       (run no_exponent_notation fixed_pitch (mount true 640%float 480%float)
          [GetUserMediaResolved (mkMediaStream 1); ModelLoadRejected "load";
           LoadedMetadata; AnimationFrame])) = [ConsoleError "load"].
Proof.
  apply (model_rejection_never_starts no_exponent_notation fixed_pitch
           true 640%float 480%float
           [GetUserMediaResolved (mkMediaStream 1); ModelLoadRejected "load";
            LoadedMetadata; AnimationFrame] "load").
  vm_compute. reflexivity.
Defined.

(** ** Concrete runs for the further properties *)

Lemma drawBBox_forgets_attributes_witness :
  drawn no_exponent_notation fixed_pitch [person]
    (Canvas.getContext 640%float 480%float) =
  drawn no_exponent_notation fixed_pitch [person]
    (drawBBox no_exponent_notation fixed_pitch [person; person]
       (Canvas.getContext 640%float 480%float)).
Proof.
  apply (drawBBox_forgets_attributes no_exponent_notation fixed_pitch
           [person] (Canvas.getContext 640%float 480%float)
           (drawBBox no_exponent_notation fixed_pitch [person; person]
              (Canvas.getContext 640%float 480%float))).
  - vm_compute. reflexivity.
  - vm_compute. reflexivity.
Defined.

Lemma loop_never_stops_witness :
  loop_started
    (run no_exponent_notation fixed_pitch (mount true 640%float 480%float)
       (ready_events ++
        [AnimationFrame; DetectRejected 0 "detect"; AnimationFrame;
         DetectResolved 2 [person]; ModelLoadRejected "late"])) = true /\
  exists model,
    promiseModel
      (run no_exponent_notation fixed_pitch (mount true 640%float 480%float)
         (ready_events ++
          [AnimationFrame; DetectRejected 0 "detect"; AnimationFrame;
           DetectResolved 2 [person]; ModelLoadRejected "late"])) =
      Fulfilled model /\
    animationFrameCallbacks
      (run no_exponent_notation fixed_pitch (mount true 640%float 480%float)
         (ready_events ++
          [AnimationFrame; DetectRejected 0 "detect"; AnimationFrame;
           DetectResolved 2 [person]; ModelLoadRejected "late"])) = [model].
Proof.
  apply (loop_never_stops no_exponent_notation fixed_pitch
           true 640%float 480%float ready_events).
  vm_compute. reflexivity.
Defined.

Lemma detect_uses_loaded_model_witness :
  promiseModel
    (run no_exponent_notation fixed_pitch (mount true 640%float 480%float)
       (ready_events ++ [AnimationFrame])) = Fulfilled mobilenet /\
  Some (mkMediaStream 1) =
    srcObject
      (run no_exponent_notation fixed_pitch (mount true 640%float 480%float)
         (ready_events ++ [AnimationFrame])) /\
  Some (mkMediaStream 1) = Some (mkMediaStream 1).
Proof.
  apply (detect_uses_loaded_model no_exponent_notation fixed_pitch
           true 640%float 480%float (ready_events ++ [AnimationFrame])
           1%nat mobilenet (Some (mkMediaStream 1))).
  vm_compute. right. right. left. reflexivity.
Defined.

Lemma older_result_replaces_newer_witness :
  after_last_clear
    (Canvas.calls
       (ctx
          (run no_exponent_notation fixed_pitch
             (run no_exponent_notation fixed_pitch
                (mount true 640%float 480%float)
                (ready_events ++ [AnimationFrame]))
             [DetectResolved 1 [person; person]; DetectResolved 0 [person]])))
    = shapes no_exponent_notation fixed_pitch [person] /\
  renders
    (run no_exponent_notation fixed_pitch
       (run no_exponent_notation fixed_pitch
          (mount true 640%float 480%float)
          (ready_events ++ [AnimationFrame]))
       [DetectResolved 1 [person; person]; DetectResolved 0 [person]]) =
    S (S (renders
            (run no_exponent_notation fixed_pitch
               (mount true 640%float 480%float)
               (ready_events ++ [AnimationFrame])))) /\
  pendingDetect
    (run no_exponent_notation fixed_pitch
       (run no_exponent_notation fixed_pitch
          (mount true 640%float 480%float)
          (ready_events ++ [AnimationFrame]))
       [DetectResolved 1 [person; person]; DetectResolved 0 [person]]) =
    remove_call 0
      (remove_call 1
         (pendingDetect
            (run no_exponent_notation fixed_pitch
               (mount true 640%float 480%float)
               (ready_events ++ [AnimationFrame])))).
Proof.
  apply (older_result_replaces_newer no_exponent_notation fixed_pitch
           (run no_exponent_notation fixed_pitch
              (mount true 640%float 480%float)
              (ready_events ++ [AnimationFrame]))
           0%nat 1%nat [person] [person; person]).
  - lia.
  - vm_compute. reflexivity.
  - vm_compute. reflexivity.
Defined.

Lemma label_is_nearest_hundredth_witness :
  exists n : Z,
    predictionText no_exponent_notation person =
      class person ++ " " ++ JS.fixed_notation n 2 /\
    match Prim2SF (score person * 100)%float with
    | S754_zero _ => n = 0
    | S754_finite _ m e =>
        (2 * n - 1) * 2 ^ Z.max (- e) 0
        <= 2 * (Z.pos m * 10 ^ 2 * 2 ^ Z.max e 0)
        < (2 * n + 1) * 2 ^ Z.max (- e) 0
    | _ => False
    end.
Proof.
  apply (label_is_nearest_hundredth no_exponent_notation person).
  - vm_compute. reflexivity.
  - vm_compute. reflexivity.
Defined.

Lemma frame_runs_one_tick_witness :
  exists model,
    promiseModel (ready no_exponent_notation fixed_pitch) = Fulfilled model /\
    effects (step no_exponent_notation fixed_pitch
               (ready no_exponent_notation fixed_pitch) AnimationFrame) =
      (effects (ready no_exponent_notation fixed_pitch) ++
       [ModelDetect (nextCall (ready no_exponent_notation fixed_pitch)) model
          (srcObject (ready no_exponent_notation fixed_pitch));
        RequestAnimationFrame])%list /\
    pendingDetect (step no_exponent_notation fixed_pitch
                     (ready no_exponent_notation fixed_pitch) AnimationFrame) =
      (pendingDetect (ready no_exponent_notation fixed_pitch) ++
       [nextCall (ready no_exponent_notation fixed_pitch)])%list /\
    nextCall (step no_exponent_notation fixed_pitch
                (ready no_exponent_notation fixed_pitch) AnimationFrame) =
      S (nextCall (ready no_exponent_notation fixed_pitch)).
Proof.
  apply (frame_runs_one_tick no_exponent_notation fixed_pitch
           true 640%float 480%float ready_events).
  vm_compute. reflexivity.
Defined.

Lemma loop_starts_when_both_ready_witness :
  loop_started
    (run no_exponent_notation fixed_pitch (mount true 640%float 480%float)
       denied_events) = true /\
  promiseAll
    (run no_exponent_notation fixed_pitch (mount true 640%float 480%float)
       denied_events) = Fulfilled (mobilenet, Undefined).
Proof.
  apply (loop_starts_when_both_ready no_exponent_notation fixed_pitch
           640%float 480%float denied_events mobilenet Undefined).
  - vm_compute. reflexivity.
  - vm_compute. reflexivity.
Defined.
